(** * ntcore Python SDK: the client facade, the run handle and the request builder

    A shallow embedding of [sdk/python/ntcore/client.py] and
    [sdk/python/ntcore/models/experiment.py].

    Conventions.
    - A Python [str] is a Rocq [string] holding the UTF-8 bytes of the text, so
      that [s.encode('utf-8')] is the list of the string's bytes.  The only
      character the code inspects is the separator ['/'], which is ASCII and
      never part of a multi-byte UTF-8 sequence.
    - A Python [bytes] value is a [list byte].
    - Objects that are shared by reference (the [Experiment] handles, which
      [start_run] both queues and returns) live in a store indexed by address.
    - A call either returns, raises, or never returns ([queue.Queue.get] on an
      empty queue). *)

From Stdlib Require Import ZArith NArith List Bool Ascii String Lia.
From Stdlib.Strings Require Import Byte.
From Stdlib Require Import Decimal DecimalString.
From stdpp Require Import base option list gmap strings sorting.

Import ListNotations.
Local Open Scope string_scope.
Local Open Scope list_scope.

(** ** Request builder: [Client.__build_url] *)

Module Url.

(** The separator of [s.strip('/')] and ['/'.join(...)]. *)
Definition slash : ascii := "/"%char.

(** [str.lstrip(c)] for a one-character set: drop the leading run of [c]. *)
Fixpoint lstrip (c : ascii) (s : string) : string :=
  match s with
  | EmptyString => EmptyString
  | String a s' => if Ascii.eqb a c then lstrip c s' else s
  end.

(** [str.rstrip(c)]: drop the trailing run of [c]. *)
Fixpoint rstrip (c : ascii) (s : string) : string :=
  match s with
  | EmptyString => EmptyString
  | String a s' =>
      match rstrip c s' with
      | EmptyString => if Ascii.eqb a c then EmptyString else String a EmptyString
      | r => String a r
      end
  end.

(** [s.strip(c)]: both ends. *)
Definition strip (c : ascii) (s : string) : string := rstrip c (lstrip c s).

(** [sep.join(parts)]. *)
Fixpoint join (sep : string) (parts : list string) : string :=
  match parts with
  | [] => EmptyString
  | [p] => p
  | p :: rest => p ++ sep ++ join sep rest
  end.

(** [return '/'.join(s.strip('/') for s in paths)] *)
Definition build_url (paths : list string) : string :=
  join (String slash EmptyString) (map (strip slash) paths).

(** The three observations of the request builder's contract. *)
Definition starts_with_sep (s : string) : bool :=
  match s with
  | String a _ => Ascii.eqb a slash
  | EmptyString => false
  end.

Fixpoint ends_with_sep (s : string) : bool :=
  match s with
  | EmptyString => false
  | String a EmptyString => Ascii.eqb a slash
  | String _ s' => ends_with_sep s'
  end.

Fixpoint has_doubled_sep (s : string) : bool :=
  match s with
  | EmptyString => false
  | String a s' =>
      (Ascii.eqb a slash && starts_with_sep s') || has_doubled_sep s'
  end.

(** A string is clean when it has no doubled separator and no separator at
    either end. *)
Definition clean (s : string) : Prop :=
  has_doubled_sep s = false /\ starts_with_sep s = false /\ ends_with_sep s = false.

End Url.

(** ** Base64: [base64.b64encode] (RFC 4648, standard alphabet, padded) *)

Module Base64.
Local Open Scope N_scope.

Definition alphabet : list byte :=
  list_byte_of_string
    "ABCDEFGHIJKLMNOPQRSTUVWXYZabcdefghijklmnopqrstuvwxyz0123456789+/".

(** The padding character ['=']. *)
Definition pad : byte := x3d.

(** The character of a 6-bit value. *)
Definition enc6 (n : N) : byte := nth (N.to_nat n) alphabet pad.

Fixpoint index_of (c : byte) (l : list byte) (i : N) : option N :=
  match l with
  | [] => None
  | x :: l' => if Byte.eqb c x then Some i else index_of c l' (N.succ i)
  end.

(** The 6-bit value of a character, if it is in the alphabet. *)
Definition dec6 (c : byte) : option N := index_of c alphabet 0.

Definition byte_of (n : N) : byte :=
  match Byte.of_N n with
  | Some b => b
  | None => x00
  end.

(** Three octets as one 24-bit group, and the 6-bit and 8-bit fields of a
    group. *)
Definition word24 (a b c : byte) : N :=
  N.shiftl (Byte.to_N a) 16 + N.shiftl (Byte.to_N b) 8 + Byte.to_N c.

Definition sextet (w k : N) : N := N.land (N.shiftr w k) 63.

Definition octet (w k : N) : N := N.land (N.shiftr w k) 255.

Fixpoint b64encode (bs : list byte) : list byte :=
  match bs with
  | [] => []
  | [a] =>
      let w := word24 a x00 x00 in
      [enc6 (sextet w 18); enc6 (sextet w 12); pad; pad]
  | [a; b] =>
      let w := word24 a b x00 in
      [enc6 (sextet w 18); enc6 (sextet w 12); enc6 (sextet w 6); pad]
  | a :: b :: c :: rest =>
      let w := word24 a b c in
      enc6 (sextet w 18) :: enc6 (sextet w 12) :: enc6 (sextet w 6) ::
      enc6 (sextet w 0) :: b64encode rest
  end.

(** The reference decoder, used to state the round trip: four characters
    give three octets, and the last group may carry one or two pads. *)
Definition group24 (s1 s2 s3 s4 : N) : N :=
  N.shiftl s1 18 + N.shiftl s2 12 + N.shiftl s3 6 + s4.

Definition decode_quad (c1 c2 c3 c4 : byte) : option (list byte) :=
  match dec6 c1, dec6 c2, dec6 c3, dec6 c4 with
  | Some s1, Some s2, Some s3, Some s4 =>
      let w := group24 s1 s2 s3 s4 in
      Some [byte_of (octet w 16); byte_of (octet w 8); byte_of (octet w 0)]
  | _, _, _, _ => None
  end.

Definition decode_last (c1 c2 c3 c4 : byte) : option (list byte) :=
  if Byte.eqb c4 pad then
    if Byte.eqb c3 pad then
      match dec6 c1, dec6 c2 with
      | Some s1, Some s2 =>
          Some [byte_of (octet (group24 s1 s2 0 0) 16)]
      | _, _ => None
      end
    else
      match dec6 c1, dec6 c2, dec6 c3 with
      | Some s1, Some s2, Some s3 =>
          let w := group24 s1 s2 s3 0 in
          Some [byte_of (octet w 16); byte_of (octet w 8)]
      | _, _, _ => None
      end
  else decode_quad c1 c2 c3 c4.

Fixpoint b64decode (cs : list byte) : option (list byte) :=
  match cs with
  | [] => Some []
  | c1 :: c2 :: c3 :: c4 :: rest =>
      match rest with
      | [] => decode_last c1 c2 c3 c4
      | _ :: _ =>
          match decode_quad c1 c2 c3 c4, b64decode rest with
          | Some q, Some r => Some (q ++ r)
          | _, _ => None
          end
      end
  | _ => None
  end.

(** A character of base64 text: an alphabet character or the pad. *)
Definition b64_char (c : byte) : bool :=
  match dec6 c with
  | Some _ => true
  | None => Byte.eqb c pad
  end.

End Base64.

(** ** The Python run-time notions the SDK relies on *)

Module Py.

(** The exceptions the code raises itself or provokes from builtins, and
    whatever a collaborator (pickle, json, the frameworks, the transport)
    raises. *)
Inductive exn : Type :=
| ValueError (msg : string)
| TypeError (msg : string)
| AttributeError (msg : string)
| OtherError (cls msg : string).

(** How a call ends: it returns, it raises, or it waits for ever. *)
Inductive outcome (A : Type) : Type :=
| Returned (a : A)
| Raised (e : exn)
| Blocked.

Arguments Returned {A} a.
Arguments Raised {A} e.
Arguments Blocked {A}.

(** [s.encode('utf-8')] on a string kept as its UTF-8 bytes. *)
Definition encode_utf8 (s : string) : list byte := list_byte_of_string s.

End Py.

Import Py.

(** The two error kinds of the specification are [ValueError]s told apart by
    their message. *)
Definition EmptyRunQueue : exn := ValueError "No active experiment".
Definition MissingWorkspaceError : exn := ValueError "Workspace id is required".

(** A [tempfile.NamedTemporaryFile] handle; the code reads only its [name]. *)
Record tmpfile : Type := { name : string }.

(** The mapping [save_model] posts. *)
Record payload : Type := {
  runtime : string;
  framework : string;
  parameters : list byte;
  metrics : list byte;
  model : list byte
}.

(** Collaborators that are not part of the two modules: the objects callers
    pass in, the three ML frameworks, [pickle], [json], [tempfile], the
    transport [ApiClient] and [integrations.utils]. *)
Class Collaborators : Type := {
  (* an arbitrary Python object logged as metadata, and [dict()] *)
  pyobj : Type;
  empty_dict : pyobj;
  (* the object handed to [save_model], with the three [isinstance] tests *)
  model_obj : Type;
  is_BaseEstimator : model_obj -> bool;
  is_keras_Model : model_obj -> bool;
  is_torch_Module : model_obj -> bool;
  (* [pickle.dumps(model)] *)
  pickle_dumps : model_obj -> exn + list byte;
  (* [model.save(model_dir)]: the saved directory tree *)
  saved_dir : Type;
  keras_save : model_obj -> exn + saved_dir;
  (* the bytes of the gzipped tar of that tree under the name "model" *)
  targz : saved_dir -> exn + list byte;
  (* [torch.jit.script(model).save(file)]: the bytes written *)
  torch_script_save : model_obj -> exn + list byte;
  (* [json.dumps(obj)] *)
  json_dumps : pyobj -> exn + string;
  (* [get_runtime_version()] *)
  get_runtime_version : exn + string;
  (* the name of the n-th temporary file created, for a suffix *)
  tmp_name : nat -> string -> string;
  (* [ApiClient.doPost(url, data)], which may depend on the earlier posts *)
  response : Type;
  doPost : list (string * payload) -> string -> payload -> exn + response
}.

(** ** The run handle and the facade *)

Section Sdk.
Context `{Collaborators}.

(** [Experiment]: the attributes set by [__init__].  The back reference
    [_client] is the one facade of the world below. *)
Record Experiment : Type := {
  _workspace_id : option string;
  _runtime : option string;
  _framework : option string;
  _pretraining_metadata : pyobj;
  _posttraining_metadata : pyobj;
  _serializable_model : option model_obj
}.

(** Handles are references into the object store. *)
Definition addr : Type := nat.

(** The facade's mutable state and what it has done to the outside. *)
Record world : Type := {
  heap : list Experiment;          (* the Experiment objects, by address *)
  queue : list addr;               (* the items of [self._queue], oldest first *)
  posts : list (string * payload); (* the doPost calls issued, oldest first *)
  stdout : list string;            (* the lines printed *)
  tmp_count : nat                  (* temporary files created so far *)
}.

Definition set_heap (h : list Experiment) (w : world) : world :=
  {| heap := h; queue := queue w; posts := posts w; stdout := stdout w;
     tmp_count := tmp_count w |}.

Definition set_queue (q : list addr) (w : world) : world :=
  {| heap := heap w; queue := q; posts := posts w; stdout := stdout w;
     tmp_count := tmp_count w |}.

Definition add_post (url : string) (p : payload) (w : world) : world :=
  {| heap := heap w; queue := queue w; posts := posts w ++ [(url, p)];
     stdout := stdout w; tmp_count := tmp_count w |}.

Definition add_line (l : string) (w : world) : world :=
  {| heap := heap w; queue := queue w; posts := posts w;
     stdout := stdout w ++ [l]; tmp_count := tmp_count w |}.

Definition bump_tmp (w : world) : world :=
  {| heap := heap w; queue := queue w; posts := posts w; stdout := stdout w;
     tmp_count := S (tmp_count w) |}.

(** [Client.__init__]: [self._queue = Queue()], nothing else yet. *)
Definition init_world : world :=
  {| heap := []; queue := []; posts := []; stdout := []; tmp_count := 0 |}.

(** Computations: state passing with the three ways to end. *)
Definition M (A : Type) : Type := world -> outcome A * world.

Definition ret {A : Type} (a : A) : M A := fun w => (Returned a, w).

Definition raise {A : Type} (e : exn) : M A := fun w => (Raised e, w).

Definition bind {A B : Type} (c : M A) (k : A -> M B) : M B :=
  fun w =>
    match c w with
    | (Returned a, w') => k a w'
    | (Raised e, w') => (Raised e, w')
    | (Blocked, w') => (Blocked, w')
    end.

(** The result of a collaborator, as a computation. *)
Definition lift {A : Type} (r : exn + A) : M A :=
  match r with
  | inl e => raise e
  | inr a => ret a
  end.

End Sdk.

(** Sequencing, written as the statements of the source follow each other. *)
Notation "x <- c ;; k" := (bind c (fun x => k))
  (at level 100, c at next level, right associativity, only parsing).
Notation "c ;;; k" := (bind c (fun _ => k))
  (at level 100, right associativity, only parsing).

Section Operations.
Context `{Collaborators}.

(** *** [queue.Queue] *)

(** [Queue.put(item)] on an unbounded queue: append, never waits. *)
Definition queue_put (a : addr) : M unit :=
  fun w => (Returned tt, set_queue (queue w ++ [a]) w).

(** [Queue.get()] with the default [block=True, timeout=None]: remove and
    return the oldest item; on an empty queue wait until an item is put, which
    in the single caller thread never happens. *)
Definition queue_get : M addr :=
  fun w =>
    match queue w with
    | [] => (Blocked, w)
    | a :: q => (Returned a, set_queue q w)
    end.

(** [len(q)]: [queue.Queue] defines no [__len__] (its size is [qsize()]), so
    the builtin raises. *)
Definition queue_len : M nat :=
  raise (TypeError "object of type 'Queue' has no len()").

(** [q[i]]: [queue.Queue] defines no [__getitem__] either. *)
Definition queue_getitem (i : nat) : M addr :=
  raise (TypeError "'Queue' object is not subscriptable").

(** *** [Experiment] *)

(** [Experiment(client, workspace_id)]: a fresh object at the next address. *)
Definition new_Experiment (workspace_id : option string) : M addr :=
  fun w =>
    (Returned (length (heap w)),
     set_heap (heap w ++ [{| _workspace_id := workspace_id;
                             _runtime := None;
                             _framework := None;
                             _pretraining_metadata := empty_dict;
                             _posttraining_metadata := empty_dict;
                             _serializable_model := None |}]) w).

(** Attribute reads and writes through a handle.  An address that is not in
    the store has no counterpart in Python; reading through one is reported as
    an error of its own and writing through one changes nothing. *)
Definition getattr {A : Type} (f : Experiment -> A) (a : addr) : M A :=
  fun w =>
    match heap w !! a with
    | Some e => (Returned (f e), w)
    | None => (Raised (OtherError "ReferenceError" "no such object"), w)
    end.

Definition setattr (f : Experiment -> Experiment) (a : addr) : M unit :=
  fun w => (Returned tt, set_heap (alter f a (heap w)) w).

(** The properties.  [workspace_id] has a getter only. *)
Definition workspace_id (a : addr) : M (option string) := getattr _workspace_id a.

(** [experiment.workspace_id = v]: the property has no setter, so the
    assignment raises and stores nothing (the text of the message varies with
    the Python version). *)
Definition set_workspace_id (a : addr) (v : option string) : M unit :=
  raise (AttributeError "can't set attribute").

Definition get_runtime (a : addr) : M (option string) := getattr _runtime a.

Definition set_runtime (a : addr) (v : option string) : M unit :=
  setattr (fun e => {| _workspace_id := _workspace_id e;
                       _runtime := v;
                       _framework := _framework e;
                       _pretraining_metadata := _pretraining_metadata e;
                       _posttraining_metadata := _posttraining_metadata e;
                       _serializable_model := _serializable_model e |}) a.

Definition get_framework (a : addr) : M (option string) := getattr _framework a.

Definition set_framework (a : addr) (v : option string) : M unit :=
  setattr (fun e => {| _workspace_id := _workspace_id e;
                       _runtime := _runtime e;
                       _framework := v;
                       _pretraining_metadata := _pretraining_metadata e;
                       _posttraining_metadata := _posttraining_metadata e;
                       _serializable_model := _serializable_model e |}) a.

Definition pretraining_metadata (a : addr) : M pyobj :=
  getattr _pretraining_metadata a.

Definition set_pretraining_metadata (a : addr) (v : pyobj) : M unit :=
  setattr (fun e => {| _workspace_id := _workspace_id e;
                       _runtime := _runtime e;
                       _framework := _framework e;
                       _pretraining_metadata := v;
                       _posttraining_metadata := _posttraining_metadata e;
                       _serializable_model := _serializable_model e |}) a.

Definition posttraining_metadata (a : addr) : M pyobj :=
  getattr _posttraining_metadata a.

Definition set_posttraining_metadata (a : addr) (v : pyobj) : M unit :=
  setattr (fun e => {| _workspace_id := _workspace_id e;
                       _runtime := _runtime e;
                       _framework := _framework e;
                       _pretraining_metadata := _pretraining_metadata e;
                       _posttraining_metadata := v;
                       _serializable_model := _serializable_model e |}) a.

Definition serializable_model (a : addr) : M (option model_obj) :=
  getattr _serializable_model a.

Definition set_serializable_model (a : addr) (v : option model_obj) : M unit :=
  setattr (fun e => {| _workspace_id := _workspace_id e;
                       _runtime := _runtime e;
                       _framework := _framework e;
                       _pretraining_metadata := _pretraining_metadata e;
                       _posttraining_metadata := _posttraining_metadata e;
                       _serializable_model := v |}) a.

(** *** [Client] *)

(** [start_run(workspace_id)] *)
Definition start_run (workspace_id : option string) : M addr :=
  experiment <- new_Experiment workspace_id ;;
  queue_put experiment ;;;
  ret experiment.

(** [log_pretraining_metadata(metadata)] *)
Definition log_pretraining_metadata (metadata : pyobj) : M unit :=
  n <- queue_len ;;
  if Nat.eqb n 0 then raise (ValueError "No active experiment")
  else
    head <- queue_getitem 0 ;;
    set_pretraining_metadata head metadata.

(** [log_posttraining_metadata(metadata)] *)
Definition log_posttraining_metadata (metadata : pyobj) : M unit :=
  n <- queue_len ;;
  if Nat.eqb n 0 then raise (ValueError "No active experiment")
  else
    head <- queue_getitem 0 ;;
    set_posttraining_metadata head metadata.

(** [tempfile.NamedTemporaryFile(suffix=...)] *)
Definition NamedTemporaryFile (suffix : string) : M tmpfile :=
  fun w => (Returned {| name := tmp_name (tmp_count w) suffix |}, bump_tmp w).

(** [__serialize_model(model)]: the three [isinstance] branches in order; a
    model of none of the three types falls off the end of the function, which
    returns [None]. *)
Definition serialize_model (m : model_obj)
  : M (option (list byte * option tmpfile * string)) :=
  if is_BaseEstimator m then
    blob <- lift (pickle_dumps m) ;;
    ret (Some (blob, None, "sklearn"))
  else if is_keras_Model m then
    dir <- lift (keras_save m) ;;
    model_file <- NamedTemporaryFile ".tar.gz" ;;
    blob <- lift (targz dir) ;;
    ret (Some (blob, Some model_file, "tensorflow"))
  else if is_torch_Module m then
    model_file <- NamedTemporaryFile ".pt" ;;
    blob <- lift (torch_script_save m) ;;
    ret (Some (blob, Some model_file, "pytorch"))
  else ret None.

(** [a, b, c = value]: unpacking [None] raises. *)
Definition unpack3 {A B C : Type} (v : option (A * B * C)) : M (A * B * C) :=
  match v with
  | Some t => ret t
  | None => raise (TypeError "cannot unpack non-iterable NoneType object")
  end.

(** [model_file.name]: [None] has no attributes. *)
Definition file_name (f : option tmpfile) : M string :=
  match f with
  | Some t => ret (name t)
  | None => raise (AttributeError "'NoneType' object has no attribute 'name'")
  end.

(** [print(line)] *)
Definition print (line : string) : M unit :=
  fun w => (Returned tt, add_line line w).

(** [self._api_client.doPost(url, data)]: the request goes out, then the
    transport answers or raises. *)
Definition do_post (url : string) (data : payload) : M response :=
  fun w =>
    match doPost (posts w) url data with
    | inl e => (Raised e, add_post url data w)
    | inr r => (Returned r, add_post url data w)
    end.

(** [save_model(model)].  The keyword arguments of [dict(...)] are evaluated
    left to right. *)
Definition save_model (m : model_obj) : M response :=
  experiment <- queue_get ;;
  wid <- workspace_id experiment ;;
  match wid with
  | None => raise (ValueError "Workspace id is required")
  | Some workspace_id =>
      result <- serialize_model m ;;
      triple <- unpack3 result ;;
      let '(serialized_model, model_file, framework) := triple in
      runtime <- lift get_runtime_version ;;
      pre <- pretraining_metadata experiment ;;
      pre_json <- lift (json_dumps pre) ;;
      post <- posttraining_metadata experiment ;;
      post_json <- lift (json_dumps post) ;;
      let data :=
        {| runtime := runtime;
           framework := framework;
           parameters := encode_utf8 pre_json;
           metrics := encode_utf8 post_json;
           model := Base64.b64encode serialized_model |} in
      line <- file_name model_file ;;
      print line ;;;
      do_post (Url.build_url ["workspace"; workspace_id; "experiment"]) data
  end.

(** [Experiment.save()].  The method has no [return] statement: the answer of
    [save_model] is dropped and the call yields [None]. *)
Definition Experiment_save (a : addr) : M unit :=
  m <- serializable_model a ;;
  match m with
  | None => raise (ValueError "Model is empty")
  | Some model => save_model model ;;; ret tt
  end.

End Operations.

(** ** Frame conditions *)

Section Frames.
Context `{Collaborators}.

(** A computation respects a relation between the worlds before and after,
    however it ends. *)
Definition respects {A : Type} (R : world -> world -> Prop) (c : M A) : Prop :=
  forall w o w', c w = (o, w') -> R w w'.

(** The pending-run collection is as before. *)
Definition same_queue (w w' : world) : Prop := queue w' = queue w.

(** No request went out. *)
Definition same_posts (w w' : world) : Prop := posts w' = posts w.

(** At most one request went out. *)
Definition at_most_one_post (w w' : world) : Prop :=
  posts w' = posts w \/ exists url data, posts w' = posts w ++ [(url, data)].

(** No handle was created or changed. *)
Definition same_heap (w w' : world) : Prop := heap w' = heap w.

(** Every handle that existed is still there with the workspace id it had. *)
Definition workspace_ids_kept (w w' : world) : Prop :=
  forall a e, heap w !! a = Some e ->
    exists e', heap w' !! a = Some e' /\ _workspace_id e' = _workspace_id e.

(** Every queued address refers to a handle. *)
Definition well_formed (w : world) : Prop :=
  Forall (fun a => a < length (heap w)) (queue w).

(** The operations a caller can perform on the facade and on the handles it
    was given, and the world each leaves behind. *)
Inductive operation : Type :=
| Op_start_run (workspace_id : option string)
| Op_log_pretraining_metadata (metadata : pyobj)
| Op_log_posttraining_metadata (metadata : pyobj)
| Op_save_model (m : model_obj)
| Op_set_workspace_id (a : addr) (v : option string)
| Op_set_runtime (a : addr) (v : option string)
| Op_set_framework (a : addr) (v : option string)
| Op_set_pretraining_metadata (a : addr) (v : pyobj)
| Op_set_posttraining_metadata (a : addr) (v : pyobj)
| Op_set_serializable_model (a : addr) (v : option model_obj)
| Op_Experiment_save (a : addr).

Definition perform (o : operation) (w : world) : world :=
  match o with
  | Op_start_run wid => snd (start_run wid w)
  | Op_log_pretraining_metadata md => snd (log_pretraining_metadata md w)
  | Op_log_posttraining_metadata md => snd (log_posttraining_metadata md w)
  | Op_save_model m => snd (save_model m w)
  | Op_set_workspace_id a v => snd (set_workspace_id a v w)
  | Op_set_runtime a v => snd (set_runtime a v w)
  | Op_set_framework a v => snd (set_framework a v w)
  | Op_set_pretraining_metadata a v => snd (set_pretraining_metadata a v w)
  | Op_set_posttraining_metadata a v => snd (set_posttraining_metadata a v w)
  | Op_set_serializable_model a v => snd (set_serializable_model a v w)
  | Op_Experiment_save a => snd (Experiment_save a w)
  end.

(** A caller's session: operations one after the other, a raised exception
    being caught by the caller.  A call that never returns ends the session;
    going on from its state only adds behaviours. *)
Definition perform_all (os : list operation) (w : world) : world :=
  fold_left (fun w o => perform o w) os w.

End Frames.

(** ** A small instance of the collaborators, to run the definitions *)

(** Five model objects: one of each framework, one that is both an estimator
    and a layered network, and one that is none of the three. *)
Inductive demo_model : Type :=
| SklearnModel | KerasModel | TorchModel | SklearnKerasModel | PlainObject.

(** The transport answers when [up] holds and raises otherwise. *)
Definition demo (up : bool) : Collaborators :=
  {| pyobj := bool;
     empty_dict := false;
     model_obj := demo_model;
     is_BaseEstimator m :=
       match m with SklearnModel | SklearnKerasModel => true | _ => false end;
     is_keras_Model m :=
       match m with KerasModel | SklearnKerasModel => true | _ => false end;
     is_torch_Module m :=
       match m with TorchModel => true | _ => false end;
     pickle_dumps _ := inr [x80; x04; x4e; x2e];
     saved_dir := unit;
     keras_save _ := inr tt;
     targz _ := inr [x1f; x8b; x08];
     torch_script_save _ := inr [x50; x4b; x03; x04; x00];
     json_dumps o := inr (if o then "[]" else "{}");
     get_runtime_version := inr "python-3.8";
     tmp_name n suffix := ("/tmp/tmp" ++ suffix)%string;
     response := unit;
     doPost _ _ _ :=
       if up then inr tt else inl (OtherError "HTTPError" "503") |}.

Definition demo_up : Collaborators := demo true.

Definition demo_down : Collaborators := demo false.

(** A handle as [start_run] makes it, possibly with a model, and a metadata
    object other than [dict()], in the small instance. *)
Definition demo_handle (wid : string)
           (m : option (model_obj (Collaborators := demo_up)))
  : Experiment (H := demo_up) :=
  {| _workspace_id := Some wid; _runtime := None; _framework := None;
     _pretraining_metadata := empty_dict; _posttraining_metadata := empty_dict;
     _serializable_model := m |}.

Definition demo_metadata : pyobj (Collaborators := demo_up) := true.

(** Two runs started on a fresh facade, neither saved. *)
Definition two_runs `{Collaborators} : world :=
  snd (start_run (Some "w2") (snd (start_run (Some "w1") init_world))).

(** ** The workspace, registry and model calls of the facade *)

(** The values the facade puts into request bodies, and a body as the
    key-value pairs of the [dict], in the order written. *)
Inductive value : Type :=
| VStr (s : string)
| VInt (z : Z).

Definition body : Type := list (string * value).

(** What [ApiClient] is asked to do: [doGet(url)], [doPost(url, data)],
    [doDel(url)]. *)
Inductive request : Type :=
| Get (url : string)
| Post (url : string) (data : body)
| Delete (url : string).

(** The transport behind these calls: its answer to a request may depend on
    the requests sent before. *)
Class Transport : Type := {
  reply : Type;
  answer : list request -> request -> exn + reply
}.

(** [str(version)] for an integer version: the decimal numeral. *)
Definition str_int (z : Z) : string := NilZero.string_of_int (Z.to_int z).

(** [s.strip('/')] on an argument that may be [None]. *)
Definition strip_arg (p : option string) : exn + string :=
  match p with
  | Some s => inr (Url.strip Url.slash s)
  | None => inl (AttributeError "'NoneType' object has no attribute 'strip'")
  end.

(** The generator [s.strip('/') for s in paths], consumed from the left. *)
Fixpoint strip_args (paths : list (option string)) : exn + list string :=
  match paths with
  | [] => inr []
  | p :: rest =>
      match strip_arg p with
      | inl e => inl e
      | inr s =>
          match strip_args rest with
          | inl e => inl e
          | inr l => inr (s :: l)
          end
      end
  end.

(** [__build_url] when a caller-supplied segment may be [None]. *)
Definition build_url_of (paths : list (option string)) : exn + string :=
  match strip_args paths with
  | inl e => inl e
  | inr l => inr (Url.join (String Url.slash EmptyString) l)
  end.

Section Calls.
Context `{Transport}.

(** Calls against the transport: the requests sent so far are the state. *)
Definition Api (A : Type) : Type := list request -> outcome A * list request.

(** One call of [ApiClient]: the request goes out, then the transport answers
    or raises. *)
Definition send (r : request) : Api reply :=
  fun log =>
    match answer log r with
    | inl e => (Raised e, log ++ [r])
    | inr x => (Returned x, log ++ [r])
    end.

(** Evaluate the url argument, then make the call. *)
Definition with_url (paths : list (option string)) (mk : string -> request)
  : Api reply :=
  fun log =>
    match build_url_of paths with
    | inl e => (Raised e, log)
    | inr url => send (mk url) log
    end.

(** [create_workspace(name)] *)
Definition create_workspace (name : string) : Api reply :=
  with_url [Some "workspace"]
           (fun url => Post url [("type", VStr "API"); ("name", VStr name)]).

(** [get_workspace(workspace_id)] *)
Definition get_workspace (workspace_id : option string) : Api reply :=
  with_url [Some "workspace"; workspace_id] Get.

(** [list_workspaces()] *)
Definition list_workspaces : Api reply :=
  with_url [Some "workspaces"] Get.

(** [delete_workspace(workspace_id)] *)
Definition delete_workspace (workspace_id : option string) : Api reply :=
  with_url [Some "workspace"; workspace_id] Delete.

(** [register_experiment(workspace_id, version)] *)
Definition register_experiment (workspace_id : option string) (version : Z)
  : Api reply :=
  with_url [Some "workspace"; workspace_id; Some "registry"]
           (fun url => Post url [("version", VInt version)]).

(** [get_registered_experiment(workspace_id)] *)
Definition get_registered_experiment (workspace_id : option string) : Api reply :=
  with_url [Some "workspaces"; workspace_id; Some "registry"] Get.

(** [unregister_experiment(workspace_id)] *)
Definition unregister_experiment (workspace_id : option string) : Api reply :=
  with_url [Some "workspace"; workspace_id; Some "registry"] Delete.

(** [deploy_model(workspace_id, version)] *)
Definition deploy_model (workspace_id : option string) (version : Z) : Api reply :=
  with_url [Some "workspace"; workspace_id; Some "model";
            Some (str_int version); Some "deploy"]
           (fun url => Post url []).

(** [download_model(workspace_id, version)] *)
Definition download_model (workspace_id : option string) (version : Z)
  : Api reply :=
  with_url [Some "workspace"; workspace_id; Some "model"; Some (str_int version)]
           Get.

(** The nine calls as data, to speak about all of them and about sequences. *)
Inductive api_call : Type :=
| Call_create_workspace (name : string)
| Call_get_workspace (workspace_id : option string)
| Call_list_workspaces
| Call_delete_workspace (workspace_id : option string)
| Call_register_experiment (workspace_id : option string) (version : Z)
| Call_get_registered_experiment (workspace_id : option string)
| Call_unregister_experiment (workspace_id : option string)
| Call_deploy_model (workspace_id : option string) (version : Z)
| Call_download_model (workspace_id : option string) (version : Z).

Definition invoke (c : api_call) : Api reply :=
  match c with
  | Call_create_workspace name => create_workspace name
  | Call_get_workspace wid => get_workspace wid
  | Call_list_workspaces => list_workspaces
  | Call_delete_workspace wid => delete_workspace wid
  | Call_register_experiment wid v => register_experiment wid v
  | Call_get_registered_experiment wid => get_registered_experiment wid
  | Call_unregister_experiment wid => unregister_experiment wid
  | Call_deploy_model wid v => deploy_model wid v
  | Call_download_model wid v => download_model wid v
  end.


End Calls.


Definition map_workspace_id (f : string -> string) (c : api_call) : api_call :=
  match c with
  | Call_create_workspace n => Call_create_workspace n
  | Call_list_workspaces => Call_list_workspaces
  | Call_get_workspace wid => Call_get_workspace (f <$> wid)
  | Call_delete_workspace wid => Call_delete_workspace (f <$> wid)
  | Call_register_experiment wid v => Call_register_experiment (f <$> wid) v
  | Call_get_registered_experiment wid => Call_get_registered_experiment (f <$> wid)
  | Call_unregister_experiment wid => Call_unregister_experiment (f <$> wid)
  | Call_deploy_model wid v => Call_deploy_model (f <$> wid) v
  | Call_download_model wid v => Call_download_model (f <$> wid) v
  end.



(** A transport that answers every request with its position in the log. *)
Definition counting_transport : Transport :=
  {| reply := nat; answer log _ := inr (length log) |}.

(** ** Order of the pending runs *)

Section Order.
Context `{Collaborators}.

(** The pending runs are queued in the order they were created, each once,
    and each is a handle of the store. *)
Definition fifo (w : world) : Prop :=
  StronglySorted lt (queue w) /\ Forall (fun a => a < length (heap w)) (queue w).

End Order.

(** * Properties *)

(** ** Request builder *)

Section UrlFacts.
Import Url.

Lemma lstrip_no_lead (s : string) : starts_with_sep (lstrip slash s) = false.
Proof.
  induction s as [|a s IH]; simpl; [reflexivity|].
  destruct (Ascii.eqb a slash) eqn:E; [exact IH|].
  simpl. exact E.
Qed.

Lemma rstrip_no_trail (s : string) : ends_with_sep (rstrip slash s) = false.
Proof.
  induction s as [|a s IH]; simpl; [reflexivity|].
  destruct (rstrip slash s) as [|b r] eqn:R.
  - destruct (Ascii.eqb a slash) eqn:E; simpl; [reflexivity | exact E].
  - exact IH.
Qed.

Lemma rstrip_keeps_lead (s : string) :
  starts_with_sep s = false -> starts_with_sep (rstrip slash s) = false.
Proof.
  destruct s as [|a s]; simpl; [reflexivity|].
  intros E. destruct (rstrip slash s); [rewrite E|]; simpl; exact E.
Qed.

Lemma strip_no_lead (s : string) : starts_with_sep (strip slash s) = false.
Proof. apply rstrip_keeps_lead, lstrip_no_lead. Qed.

Lemma strip_no_trail (s : string) : ends_with_sep (strip slash s) = false.
Proof. apply rstrip_no_trail. Qed.

Lemma starts_app (s t : string) :
  starts_with_sep (s ++ t) =
  match s with EmptyString => starts_with_sep t | _ => starts_with_sep s end.
Proof. destruct s; reflexivity. Qed.

Lemma ends_app (s t : string) :
  ends_with_sep (s ++ t) =
  match t with EmptyString => ends_with_sep s | _ => ends_with_sep t end.
Proof.
  induction s as [|a s IH]; simpl.
  - destruct t; reflexivity.
  - rewrite IH. destruct t as [|b t].
    + destruct s; simpl; reflexivity.
    + destruct s; simpl; reflexivity.
Qed.

Lemma doubled_app (s t : string) :
  has_doubled_sep (s ++ t) =
  has_doubled_sep s || has_doubled_sep t || (ends_with_sep s && starts_with_sep t).
Proof.
  induction s as [|a s IH]; simpl.
  - rewrite orb_false_r. reflexivity.
  - rewrite IH, starts_app. destruct s as [|b s]; simpl.
    + destruct (Ascii.eqb a slash), (has_doubled_sep t), (starts_with_sep t); reflexivity.
    + destruct (Ascii.eqb a slash), (Ascii.eqb b slash), (has_doubled_sep s),
        (has_doubled_sep t), (ends_with_sep (String b s)), (starts_with_sep t);
        reflexivity.
Qed.

(** The executable observations mean what their names say. *)
Lemma starts_with_sep_spec (s : string) :
  starts_with_sep s = true <-> exists v, s = String slash v.
Proof.
  destruct s as [|a s]; simpl.
  - split; [discriminate | intros [v Hv]; discriminate].
  - split.
    + intros E. apply Ascii.eqb_eq in E. subst a. eauto.
    + intros [v Hv]. injection Hv as -> _. reflexivity.
Qed.

Lemma has_doubled_sep_spec (s : string) :
  has_doubled_sep s = true <->
  exists u v, s = (u ++ String slash (String slash v))%string.
Proof.
  induction s as [|a s IH]; simpl.
  - split; [discriminate|]. intros (u & v & H). destruct u; discriminate.
  - rewrite orb_true_iff, andb_true_iff, IH, starts_with_sep_spec. split.
    + intros [[E [v Hv]] | (u & v & Hs)].
      * apply Ascii.eqb_eq in E. subst. exists EmptyString, v. reflexivity.
      * subst. exists (String a u), v. reflexivity.
    + intros (u & v & H). destruct u as [|b u]; simpl in H.
      * injection H as -> ->. left. split; [reflexivity | eauto].
      * injection H as -> ->. right. eauto.
Qed.

Lemma join_clean (l : list string) :
  Forall (fun p => p <> EmptyString /\ clean p) l ->
  clean (join (String slash EmptyString) l).
Proof.
  induction l as [|p rest IH]; intros Hall.
  - repeat split.
  - inversion Hall as [|? ? [Hne (Hd & Hs & He)] Hrest]; subst.
    destruct rest as [|q rest'].
    + simpl. repeat split; assumption.
    + specialize (IH Hrest). destruct IH as (IHd & IHs & IHe).
      inversion Hrest as [|? ? [Hqne _] _]; subst.
      change (join (String slash EmptyString) (p :: q :: rest'))
        with (p ++ String slash EmptyString ++ join (String slash EmptyString) (q :: rest'))%string.
      set (tl := join (String slash EmptyString) (q :: rest')) in *.
      assert (Htl : (String slash EmptyString ++ tl)%string = String slash tl) by reflexivity.
      rewrite Htl. repeat split.
      * rewrite doubled_app. rewrite Hd, He. simpl. rewrite IHd, IHs. reflexivity.
      * rewrite starts_app. destruct p; [congruence | exact Hs].
      * rewrite ends_app. simpl.
        destruct tl as [|c tl'] eqn:Etl; [|exact IHe].
        exfalso. subst tl. simpl in Etl.
        destruct rest'; [congruence|]. destruct q; [congruence | discriminate].
Qed.

(** Every stripped segment is free of separators at both ends, whatever the
    segment was. *)
Lemma strip_ends (s : string) :
  starts_with_sep (strip slash s) = false /\ ends_with_sep (strip slash s) = false.
Proof. split; [apply strip_no_lead | apply strip_no_trail]. Qed.

Lemma doubled_app_false (s t : string) :
  has_doubled_sep (s ++ t) = false ->
  has_doubled_sep s = false /\ has_doubled_sep t = false.
Proof.
  rewrite doubled_app. intros E.
  apply orb_false_iff in E. destruct E as [E _].
  apply orb_false_iff in E. exact E.
Qed.

(** The converse of [join_clean] for parts that have no separator at their
    ends: a clean result needs parts without doubled separators, and, unless
    the result is empty, non-empty parts. *)
Lemma join_clean_inv (l : list string) :
  clean (join (String slash EmptyString) l) ->
  Forall (fun p => has_doubled_sep p = false) l /\
  (join (String slash EmptyString) l <> EmptyString ->
   Forall (fun p => p <> EmptyString) l).
Proof.
  induction l as [|p rest IH]; intros (Hd & Hs & He).
  - split; [constructor | intros _; constructor].
  - destruct rest as [|q rest'].
    + simpl in *. split; [repeat constructor; exact Hd|].
      intros Hne. repeat constructor. exact Hne.
    + change (join (String slash EmptyString) (p :: q :: rest'))
        with (p ++ String slash (join (String slash EmptyString) (q :: rest')))%string
        in Hd, Hs, He |- *.
      set (tl := join (String slash EmptyString) (q :: rest')) in *.
      apply doubled_app_false in Hd. destruct Hd as [Hdp Hdt].
      simpl in Hdt. apply orb_false_iff in Hdt. destruct Hdt as [Hst Hdt].
      change (Ascii.eqb slash slash) with true in Hst. simpl in Hst.
      rewrite ends_app in He.
      assert (Hp : p <> EmptyString).
      { intros ->. simpl in Hs. discriminate Hs. }
      assert (Htl : tl <> EmptyString /\ ends_with_sep tl = false).
      { destruct tl as [|c tl']; [simpl in He; discriminate He|].
        split; [discriminate | exact He]. }
      destruct Htl as [Hne Het].
      destruct IH as [IHd IHn]; [repeat split; assumption|].
      split; [constructor; assumption|].
      intros _. constructor; [exact Hp | apply IHn, Hne].
Qed.


(** C4, as stated, fails: a segment made of separators only strips to the
    empty string, and joining empty segments puts separators next to each
    other and at the ends: [build_url ["/"; "/"; "/"]] is ["//"].  A separator
    doubled inside a segment is kept as well. *)
Lemma build_url_not_clean :
  build_url ["/"; "/"; "/"] = "//" /\
  has_doubled_sep (build_url ["/"; "/"; "/"]) = true /\
  starts_with_sep (build_url ["/"; "/"; "/"]) = true /\
  ends_with_sep (build_url ["/"; "/"; "/"]) = true /\
  ~ clean (build_url ["/"; "/"; "/"]) /\
  build_url ["workspace"; "a//b"] = "workspace/a//b" /\
  ~ clean (build_url ["workspace"; "a//b"]).
Proof.
  repeat split; try reflexivity.
  - intros (H & _). vm_compute in H. discriminate H.
  - intros (H & _). vm_compute in H. discriminate H.
Qed.

(** C4, amended: when every segment, once stripped of its leading and
    trailing separators, is non-empty and has no doubled separator inside,
    the request builder's output has no doubled separator and neither begins
    nor ends with a separator. *)
Theorem build_url_clean (paths : list string) :
  Forall (fun p => strip slash p <> EmptyString /\
                   has_doubled_sep (strip slash p) = false) paths ->
  clean (build_url paths).
Proof.
  intros Hall. unfold build_url. apply join_clean.
  apply Forall_map. eapply Forall_impl; [exact Hall|].
  intros p [Hne Hd]. split; [exact Hne|].
  split; [exact Hd | apply strip_ends].
Qed.

Lemma build_url_clean_witness :
  build_url ["/workspace/"; "w1"; "//registry"] = "workspace/w1/registry" /\
  clean (build_url ["/workspace/"; "w1"; "//registry"]).
Proof.
  split; [reflexivity|].
  apply (build_url_clean ["/workspace/"; "w1"; "//registry"]).
  repeat constructor; simpl; discriminate.
Defined.

(** X21: the condition on the segments is as weak as it can be: the output is
    clean exactly when no stripped segment has a doubled separator and either
    the output is empty or no stripped segment is. *)
Lemma build_url_clean_iff (paths : list string) :
  clean (build_url paths) <->
  Forall (fun p => has_doubled_sep (strip slash p) = false) paths /\
  (build_url paths = EmptyString \/
   Forall (fun p => strip slash p <> EmptyString) paths).
Proof.
  unfold build_url. split.
  - intros Hc. destruct (join_clean_inv _ Hc) as [Hd Hn]. split.
    + apply Forall_map in Hd. exact Hd.
    + destruct (join (String slash EmptyString) (map (strip slash) paths))
        as [|c u] eqn:E; [left; reflexivity|].
      right.
      apply (proj1 (Forall_map (strip slash) (fun p => p <> EmptyString) paths)).
      apply Hn. discriminate.
  - intros [Hd [E | Hn]].
    + rewrite E. repeat split.
    + apply join_clean. apply Forall_map.
      rewrite Forall_forall in Hd, Hn. apply Forall_forall.
      intros p Hp. split; [apply Hn, Hp|].
      split; [apply Hd, Hp | apply strip_ends].
Qed.

(** The paths the facade builds. *)
Example build_url_paths :
  build_url ["workspace"; "w1"; "model"; "3"; "deploy"] = "workspace/w1/model/3/deploy" /\
  build_url ["/workspace/"; "//w1"; "registry//"] = "workspace/w1/registry" /\
  build_url ["workspaces"] = "workspaces" /\
  build_url ["workspace"; ""] = "workspace/" /\
  build_url [] = "".
Proof. repeat split. Qed.

End UrlFacts.

(** ** Base64 *)

Section Base64Facts.
Import Base64.
Local Open Scope N_scope.

Lemma land63 (x : N) : N.land x 63 = x mod 64.
Proof. change 63 with (N.ones 6). rewrite N.land_ones. reflexivity. Qed.

Lemma land255 (x : N) : N.land x 255 = x mod 256.
Proof. change 255 with (N.ones 8). rewrite N.land_ones. reflexivity. Qed.

(** Shifts and masks as multiplications, divisions and remainders by
    constants, then linear arithmetic. *)
Ltac fields_to_arith :=
  unfold sextet, octet, group24, word24 in *;
  rewrite ?N.shiftl_mul_pow2, ?N.shiftr_div_pow2, ?land63, ?land255 in *;
  change (Byte.to_N x00) with 0 in *;
  change (2 ^ 18) with 262144 in *; change (2 ^ 16) with 65536 in *;
  change (2 ^ 12) with 4096 in *; change (2 ^ 8) with 256 in *;
  change (2 ^ 6) with 64 in *; change (2 ^ 0) with 1 in *.

Ltac div_lia := zify; Z.to_euclidean_division_equations; lia.

Lemma sextet_lt (w k : N) : sextet w k < 64.
Proof. unfold sextet. rewrite land63. apply N.mod_lt. discriminate. Qed.

Lemma dec6_enc6 (n : N) : n < 64 -> dec6 (enc6 n) = Some n.
Proof.
  intros Hn. destruct n as [|p]; [reflexivity|].
  do 6 (destruct p as [p|p|]; try reflexivity); lia.
Qed.

Lemma enc6_not_pad (n : N) : n < 64 -> Byte.eqb (enc6 n) pad = false.
Proof.
  intros Hn. destruct n as [|p]; [reflexivity|].
  do 6 (destruct p as [p|p|]; try reflexivity); lia.
Qed.

Lemma byte_of_to_N (b : byte) : byte_of (Byte.to_N b) = b.
Proof. unfold byte_of. rewrite Byte.of_to_N. reflexivity. Qed.

Lemma to_N_lt (b : byte) : Byte.to_N b < 256.
Proof. pose proof (Byte.to_N_bounded b). lia. Qed.

Lemma group_of_sextets (w : N) :
  w < 16777216 ->
  group24 (sextet w 18) (sextet w 12) (sextet w 6) (sextet w 0) = w.
Proof. intros Hw. fields_to_arith. div_lia. Qed.

Lemma word24_lt (a b c : byte) : word24 a b c < 16777216.
Proof.
  pose proof (to_N_lt a). pose proof (to_N_lt b). pose proof (to_N_lt c).
  fields_to_arith. lia.
Qed.

Lemma octets_of_word (a b c : byte) :
  octet (word24 a b c) 16 = Byte.to_N a /\
  octet (word24 a b c) 8 = Byte.to_N b /\
  octet (word24 a b c) 0 = Byte.to_N c.
Proof.
  pose proof (to_N_lt a). pose proof (to_N_lt b). pose proof (to_N_lt c).
  fields_to_arith. repeat split; div_lia.
Qed.

(** A full group decodes to the three octets it was made of. *)
Lemma decode_quad_encode (a b c : byte) :
  let w := word24 a b c in
  decode_quad (enc6 (sextet w 18)) (enc6 (sextet w 12))
              (enc6 (sextet w 6)) (enc6 (sextet w 0)) = Some [a; b; c].
Proof.
  intros w. subst w. unfold decode_quad.
  rewrite !dec6_enc6 by apply sextet_lt.
  cbv zeta. rewrite group_of_sextets by apply word24_lt.
  destruct (octets_of_word a b c) as (-> & -> & ->).
  rewrite !byte_of_to_N. reflexivity.
Qed.

(** The last group with two pads carries one octet. *)
Lemma decode_last_encode1 (a : byte) :
  let w := word24 a x00 x00 in
  decode_last (enc6 (sextet w 18)) (enc6 (sextet w 12)) pad pad = Some [a].
Proof.
  intros w. unfold decode_last.
  change (Byte.eqb pad pad) with true. cbv iota.
  rewrite !dec6_enc6 by apply sextet_lt.
  assert (E : octet (group24 (sextet w 18) (sextet w 12) 0 0) 16 = Byte.to_N a).
  { subst w. pose proof (to_N_lt a). fields_to_arith. div_lia. }
  rewrite E, byte_of_to_N. reflexivity.
Qed.

(** The last group with one pad carries two octets. *)
Lemma decode_last_encode2 (a b : byte) :
  let w := word24 a b x00 in
  decode_last (enc6 (sextet w 18)) (enc6 (sextet w 12)) (enc6 (sextet w 6)) pad
  = Some [a; b].
Proof.
  intros w. unfold decode_last.
  change (Byte.eqb pad pad) with true. cbv iota.
  rewrite enc6_not_pad by apply sextet_lt.
  rewrite !dec6_enc6 by apply sextet_lt. cbv zeta.
  assert (E : octet (group24 (sextet w 18) (sextet w 12) (sextet w 6) 0) 16
              = Byte.to_N a /\
              octet (group24 (sextet w 18) (sextet w 12) (sextet w 6) 0) 8
              = Byte.to_N b).
  { subst w. pose proof (to_N_lt a). pose proof (to_N_lt b).
    fields_to_arith. split; div_lia. }
  destruct E as [-> ->]. rewrite !byte_of_to_N. reflexivity.
Qed.

Lemma decode_last_encode3 (a b c : byte) :
  let w := word24 a b c in
  decode_last (enc6 (sextet w 18)) (enc6 (sextet w 12))
              (enc6 (sextet w 6)) (enc6 (sextet w 0)) = Some [a; b; c].
Proof.
  intros w. unfold decode_last.
  rewrite enc6_not_pad by apply sextet_lt.
  apply decode_quad_encode.
Qed.

(** Induction over a list three elements at a time, as [b64encode] recurses. *)
Lemma list_ind3 {A : Type} (P : list A -> Prop) :
  P [] -> (forall a, P [a]) -> (forall a b, P [a; b]) ->
  (forall a b c l, P l -> P (a :: b :: c :: l)) ->
  forall l, P l.
Proof.
  intros H0 H1 H2 H3 l.
  assert (H : P l /\ (forall a, P (a :: l)) /\ (forall a b, P (a :: b :: l))).
  { induction l as [|x l (IH0 & IH1 & IH2)]; [auto|].
    split; [apply IH1|]. split; [intros a; apply IH2|].
    intros a b. apply H3, IH0. }
  apply H.
Qed.

(** [b64decode] inverts [b64encode] on every byte sequence. *)
Lemma b64_roundtrip (bs : list byte) : b64decode (b64encode bs) = Some bs.
Proof.
  induction bs as [|a|a b|a b c l IH] using list_ind3.
  - reflexivity.
  - apply decode_last_encode1.
  - apply decode_last_encode2.
  - change (b64encode (a :: b :: c :: l))
      with (enc6 (sextet (word24 a b c) 18) :: enc6 (sextet (word24 a b c) 12) ::
            enc6 (sextet (word24 a b c) 6) :: enc6 (sextet (word24 a b c) 0) ::
            b64encode l).
    cbn [b64decode]. destruct (b64encode l) as [|x r] eqn:E.
    + assert (l = []) as ->.
      { destruct l as [|u [|v [|z l']]]; [reflexivity| discriminate..]. }
      apply decode_last_encode3.
    + rewrite (decode_quad_encode a b c).
      change (match r with [] => _ | _ => _ end) with (b64decode (x :: r)) in IH.
      fold b64decode. rewrite IH. reflexivity.
Qed.

(** The encoder's output is base64 text: alphabet characters and pads only,
    in groups of four. *)
Lemma enc6_b64_char (n : N) : n < 64 -> b64_char (enc6 n) = true.
Proof. intros Hn. unfold b64_char. rewrite dec6_enc6 by exact Hn. reflexivity. Qed.

Lemma b64encode_text (bs : list byte) :
  Forall (fun c => b64_char c = true) (b64encode bs) /\
  (4 | length (b64encode bs))%nat.
Proof.
  induction bs as [|a|a b|a b c l [IHc IHl]] using list_ind3.
  - split; [constructor | exists 0%nat; reflexivity].
  - split; [|exists 1%nat; reflexivity].
    repeat constructor; apply enc6_b64_char, sextet_lt.
  - split; [|exists 1%nat; reflexivity].
    repeat constructor; apply enc6_b64_char, sextet_lt.
  - split.
    + cbn [b64encode]. repeat (constructor; [apply enc6_b64_char, sextet_lt|]).
      exact IHc.
    + destruct IHl as [k Hk]. exists (S k). cbn [b64encode length].
      rewrite Hk. lia.
Qed.

(** The test vectors of RFC 4648, section 10. *)
Example b64encode_rfc4648 :
  map (fun s => string_of_list_byte (b64encode (list_byte_of_string s)))
      [""; "f"; "fo"; "foo"; "foob"; "fooba"; "foobar"]
  = [""; "Zg=="; "Zm8="; "Zm9v"; "Zm9vYg=="; "Zm9vYmE="; "Zm9vYmFy"]%string.
Proof. reflexivity. Qed.

Example b64decode_rfc4648 :
  map (fun s => option_map string_of_list_byte (b64decode (list_byte_of_string s)))
      ["Zg=="; "Zm8="; "Zm9v"; "Zm9vYg=="; "Zm9"; "Zm9v*g=="]
  = [Some "f"; Some "fo"; Some "foo"; Some "foob"; None; None]%string.
Proof. reflexivity. Qed.

End Base64Facts.

(** ** The monad and the frame conditions *)

Section MonadFacts.
Context `{Collaborators}.

Lemma bind_returned {A B : Type} (c : M A) (k : A -> M B) w b w' :
  bind c k w = (Returned b, w') ->
  exists a w1, c w = (Returned a, w1) /\ k a w1 = (Returned b, w').
Proof.
  unfold bind. destruct (c w) as [[a|e|] w1]; intros E; try discriminate.
  exists a, w1. split; [reflexivity | exact E].
Qed.

(** Dropping the value of a computation changes neither its state nor
    whether it returns. *)
Lemma bind_drop_state {A : Type} (c : M A) w :
  snd (bind c (fun _ => ret tt) w) = snd (c w).
Proof. unfold bind, ret. destruct (c w) as [[a|e|] w1]; reflexivity. Qed.

Lemma bind_drop_returned {A : Type} (c : M A) w w' :
  bind c (fun _ => ret tt) w = (Returned tt, w') ->
  exists a, c w = (Returned a, w').
Proof.
  unfold bind, ret. destruct (c w) as [[a|e|] w1]; intros E; inversion E; subst.
  exists a. reflexivity.
Qed.

Lemma lift_returned {A : Type} (r : exn + A) w a w' :
  lift r w = (Returned a, w') -> r = inr a /\ w' = w.
Proof.
  destruct r as [e|x]; unfold lift, raise, ret; intros E; inversion E; subst.
  split; reflexivity.
Qed.

Lemma respects_ret {A : Type} (R : world -> world -> Prop) `{!Reflexive R} (a : A) :
  respects R (ret a).
Proof. intros w o w' E. inversion E; subst. reflexivity. Qed.

Lemma respects_raise {A : Type} (R : world -> world -> Prop) `{!Reflexive R} e :
  respects R (raise (A := A) e).
Proof. intros w o w' E. inversion E; subst. reflexivity. Qed.

Lemma respects_lift {A : Type} (R : world -> world -> Prop) `{!Reflexive R}
      (r : exn + A) :
  respects R (lift r).
Proof. destruct r; [apply respects_raise | apply respects_ret]; assumption. Qed.

Lemma respects_bind {A B : Type} (R : world -> world -> Prop) `{!Transitive R}
      (c : M A) (k : A -> M B) :
  respects R c -> (forall a, respects R (k a)) -> respects R (bind c k).
Proof.
  intros Hc Hk w o w'. unfold bind.
  destruct (c w) as [[a|e|] w1] eqn:E; intros E'.
  - transitivity w1; [eapply Hc, E | eapply Hk, E'].
  - inversion E'; subst. eapply Hc, E.
  - inversion E'; subst. eapply Hc, E.
Qed.

Lemma respects_getattr {A : Type} (R : world -> world -> Prop) `{!Reflexive R}
      (f : Experiment -> A) a :
  respects R (getattr f a).
Proof.
  intros w o w'. unfold getattr. destruct (heap w !! a); intros E;
    inversion E; subst; reflexivity.
Qed.

Global Instance same_queue_refl : Reflexive same_queue.
Proof. intros w. reflexivity. Qed.

Global Instance same_queue_trans : Transitive same_queue.
Proof. intros w1 w2 w3 H1 H2. unfold same_queue in *. congruence. Qed.

Global Instance same_posts_refl : Reflexive same_posts.
Proof. intros w. reflexivity. Qed.

Global Instance same_posts_trans : Transitive same_posts.
Proof. intros w1 w2 w3 H1 H2. unfold same_posts in *. congruence. Qed.

Global Instance same_heap_refl : Reflexive same_heap.
Proof. intros w. reflexivity. Qed.

Global Instance same_heap_trans : Transitive same_heap.
Proof. intros w1 w2 w3 H1 H2. unfold same_heap in *. congruence. Qed.

Global Instance workspace_ids_kept_refl : Reflexive workspace_ids_kept.
Proof. intros w a e E. eauto. Qed.

Global Instance workspace_ids_kept_trans : Transitive workspace_ids_kept.
Proof.
  intros w1 w2 w3 H1 H2 a e E.
  destruct (H1 a e E) as (e2 & E2 & W2).
  destruct (H2 a e2 E2) as (e3 & E3 & W3).
  exists e3. split; [exact E3 | congruence].
Qed.

End MonadFacts.

(** ** What each step leaves alone *)

Section FrameFacts.
Context `{Collaborators}.

(** A primitive step: run it and compare the fields. *)
Ltac primitive :=
  let w := fresh "w" in let o := fresh "o" in let w' := fresh "w'" in
  let E := fresh "E" in
  intros w o w' E; cbv beta delta [queue_get queue_put NamedTemporaryFile print
    do_post setattr new_Experiment] in E;
  repeat match type of E with
         | context [match ?x with _ => _ end] => destruct x
         end;
  inversion E; subst; reflexivity.

Lemma queue_get_posts : respects same_posts queue_get.
Proof. primitive. Qed.

Lemma queue_get_heap : respects same_heap queue_get.
Proof. primitive. Qed.

Lemma queue_put_posts a : respects same_posts (queue_put a).
Proof. primitive. Qed.

Lemma queue_put_heap a : respects same_heap (queue_put a).
Proof. primitive. Qed.

Lemma NamedTemporaryFile_queue s : respects same_queue (NamedTemporaryFile s).
Proof. primitive. Qed.

Lemma NamedTemporaryFile_posts s : respects same_posts (NamedTemporaryFile s).
Proof. primitive. Qed.

Lemma NamedTemporaryFile_heap s : respects same_heap (NamedTemporaryFile s).
Proof. primitive. Qed.

Lemma print_queue l : respects same_queue (print l).
Proof. primitive. Qed.

Lemma print_posts l : respects same_posts (print l).
Proof. primitive. Qed.

Lemma print_heap l : respects same_heap (print l).
Proof. primitive. Qed.

Lemma do_post_queue u d : respects same_queue (do_post u d).
Proof. primitive. Qed.

Lemma do_post_heap u d : respects same_heap (do_post u d).
Proof. primitive. Qed.

Lemma setattr_queue f a : respects same_queue (setattr f a).
Proof. primitive. Qed.

Lemma setattr_posts f a : respects same_posts (setattr f a).
Proof. primitive. Qed.

Lemma new_Experiment_queue wid : respects same_queue (new_Experiment wid).
Proof. primitive. Qed.

Lemma new_Experiment_posts wid : respects same_posts (new_Experiment wid).
Proof. primitive. Qed.

(** Writing an attribute other than the workspace id keeps all workspace ids. *)
Lemma setattr_workspace_ids (f : Experiment -> Experiment) a :
  (forall e, _workspace_id (f e) = _workspace_id e) ->
  respects workspace_ids_kept (setattr f a).
Proof.
  intros Hf w o w' E. unfold setattr in E. inversion E; subst; clear E.
  intros b e Hb. simpl. destruct (decide (a = b)) as [->|Hne].
  - exists (f e). split; [|apply Hf].
    rewrite list_lookup_alter_eq, Hb. reflexivity.
  - exists e. split; [|reflexivity].
    rewrite list_lookup_alter_ne by exact Hne. exact Hb.
Qed.

(** Creating a handle keeps the existing ones. *)
Lemma new_Experiment_workspace_ids wid :
  respects workspace_ids_kept (new_Experiment wid).
Proof.
  intros w o w' E. unfold new_Experiment in E. inversion E; subst; clear E.
  intros b e Hb. exists e. split; [|reflexivity].
  simpl. rewrite lookup_app_l; [exact Hb|]. eapply lookup_lt_Some, Hb.
Qed.

Lemma same_heap_workspace_ids {A : Type} (c : M A) :
  respects same_heap c -> respects workspace_ids_kept c.
Proof.
  intros Hc w o w' E a e Ha. exists e. split; [|reflexivity].
  rewrite (Hc w o w' E). exact Ha.
Qed.

End FrameFacts.

(** ** The serializer and [save_model], step by step *)

Section SaveFacts.
Context `{Collaborators}.

Create HintDb frames.

#[local] Hint Resolve queue_get_posts queue_get_heap queue_put_posts queue_put_heap
  NamedTemporaryFile_queue NamedTemporaryFile_posts NamedTemporaryFile_heap
  print_queue print_posts print_heap do_post_queue do_post_heap
  setattr_queue setattr_posts new_Experiment_queue new_Experiment_posts : frames.

(** Split a computation along its binds and case distinctions. *)
Ltac frames :=
  repeat first
    [ apply respects_ret; typeclasses eauto
    | apply respects_raise; typeclasses eauto
    | apply respects_lift; typeclasses eauto
    | apply respects_getattr; typeclasses eauto
    | apply respects_bind; [typeclasses eauto | | intros ?]
    | match goal with
      | |- respects _ (match ?x with _ => _ end) => destruct x
      | |- respects _ (if ?x then _ else _) => destruct x
      end
    | solve [eauto with frames] ].

Lemma serialize_model_queue m : respects same_queue (serialize_model m).
Proof. unfold serialize_model. frames. Qed.

Lemma serialize_model_posts m : respects same_posts (serialize_model m).
Proof. unfold serialize_model. frames. Qed.

Lemma serialize_model_heap m : respects same_heap (serialize_model m).
Proof. unfold serialize_model. frames. Qed.

Lemma save_model_heap m : respects same_heap (save_model m).
Proof. unfold save_model, workspace_id, pretraining_metadata, posttraining_metadata,
  unpack3, file_name. pose proof (serialize_model_heap m). frames. Qed.

(** Taking the head of a non-empty queue, then going on. *)
Lemma bind_queue_get {B : Type} (k : addr -> M B) w a rest :
  queue w = a :: rest -> bind queue_get k w = k a (set_queue rest w).
Proof. intros Hq. unfold bind, queue_get. rewrite Hq. reflexivity. Qed.

Lemma bind_queue_get_empty {B : Type} (k : addr -> M B) w :
  queue w = [] -> bind queue_get k w = (Blocked, w).
Proof. intros Hq. unfold bind, queue_get. rewrite Hq. reflexivity. Qed.

Lemma after_queue_get {B : Type} (R : world -> world -> Prop) (k : addr -> M B)
      w a rest o w' :
  (forall x, respects R (k x)) ->
  queue w = a :: rest -> bind queue_get k w = (o, w') ->
  R (set_queue rest w) w'.
Proof.
  intros Hk Hq E. rewrite (bind_queue_get k w a rest Hq) in E.
  eapply Hk, E.
Qed.

(** A step that posts nothing, followed by steps that post at most once. *)
Lemma bind_one_post {A B : Type} (c : M A) (k : A -> M B) :
  respects same_posts c -> (forall a, respects at_most_one_post (k a)) ->
  respects at_most_one_post (bind c k).
Proof.
  intros Hc Hk w o w'. unfold bind.
  destruct (c w) as [[a|e|] w1] eqn:E; intros E';
    pose proof (Hc _ _ _ E) as Hp; unfold same_posts in Hp.
  - pose proof (Hk a _ _ _ E') as Hq. unfold at_most_one_post in *.
    rewrite Hp in Hq. exact Hq.
  - inversion E'; subst. left. exact Hp.
  - inversion E'; subst. left. exact Hp.
Qed.

Lemma do_post_one_post u d : respects at_most_one_post (do_post u d).
Proof.
  intros w o w'. unfold do_post.
  destruct (doPost (posts w) u d); intros E; inversion E; subst;
    right; exists u, d; reflexivity.
Qed.

Lemma raise_one_post {A : Type} e : respects at_most_one_post (raise (A := A) e).
Proof. intros w o w' E. inversion E; subst. left. reflexivity. Qed.

(** One [save_model] call sends at most one request: nothing is retried. *)
Lemma save_model_one_post m : respects at_most_one_post (save_model m).
Proof.
  unfold save_model, workspace_id, pretraining_metadata, posttraining_metadata,
    unpack3, file_name.
  pose proof (serialize_model_posts m).
  repeat first
    [ apply do_post_one_post
    | apply raise_one_post
    | apply bind_one_post; [solve [frames] | intros ?]
    | match goal with
      | |- respects _ (match ?x with _ => _ end) => destruct x
      end ].
Qed.

(** Whatever the outcome, the head run is gone afterwards. *)
Lemma save_model_pops m w a rest o w' :
  queue w = a :: rest -> save_model m w = (o, w') -> queue w' = rest.
Proof.
  intros Hq E. unfold save_model in E.
  eapply (after_queue_get same_queue) in E; [exact E| |exact Hq].
  intros x. unfold workspace_id, pretraining_metadata, posttraining_metadata,
    unpack3, file_name. pose proof (serialize_model_queue m). frames.
Qed.

(** With a head run that has no workspace id, [save_model] stops at the
    check. *)
Lemma save_model_no_workspace m w a rest e :
  queue w = a :: rest -> heap w !! a = Some e -> _workspace_id e = None ->
  save_model m w = (Raised MissingWorkspaceError, set_queue rest w).
Proof.
  intros Hq He Hwid. unfold save_model.
  rewrite (bind_queue_get _ w a rest Hq).
  unfold bind, workspace_id, getattr. simpl. rewrite He, Hwid. reflexivity.
Qed.

(** A queued address without a handle stops [save_model] at the first read. *)
Lemma save_model_dangling m w a rest :
  queue w = a :: rest -> heap w !! a = None ->
  save_model m w =
  (Raised (OtherError "ReferenceError" "no such object"), set_queue rest w).
Proof.
  intros Hq He. unfold save_model.
  rewrite (bind_queue_get _ w a rest Hq).
  unfold bind, workspace_id, getattr. simpl. rewrite He. reflexivity.
Qed.

(** With a head run that has a workspace id, [save_model] reaches the
    serializer. *)
Lemma save_model_with_workspace m w a rest e wid :
  queue w = a :: rest -> heap w !! a = Some e -> _workspace_id e = Some wid ->
  save_model m w =
  (result <- serialize_model m ;;
   triple <- unpack3 result ;;
   let '(serialized_model, model_file, framework) := triple in
   runtime <- lift get_runtime_version ;;
   pre <- pretraining_metadata a ;;
   pre_json <- lift (json_dumps pre) ;;
   post <- posttraining_metadata a ;;
   post_json <- lift (json_dumps post) ;;
   let data :=
     {| runtime := runtime;
        framework := framework;
        parameters := encode_utf8 pre_json;
        metrics := encode_utf8 post_json;
        model := Base64.b64encode serialized_model |} in
   line <- file_name model_file ;;
   print line ;;;
   do_post (Url.build_url ["workspace"; wid; "experiment"]) data)
  (set_queue rest w).
Proof.
  intros Hq He Hwid. unfold save_model.
  rewrite (bind_queue_get _ w a rest Hq).
  unfold bind at 1. unfold workspace_id, getattr. simpl. rewrite He, Hwid.
  reflexivity.
Qed.

(** On an empty queue [save_model] never gets past [Queue.get()]. *)
Lemma save_model_blocks m w : queue w = [] -> save_model m w = (Blocked, w).
Proof.
  intros Hq. unfold save_model. apply bind_queue_get_empty, Hq.
Qed.

End SaveFacts.

(** ** The run lifecycle: saving *)

Section SaveClaims.
Context `{Collaborators}.

(** C3 (the code departs from it): with no pending run, [save_model] does not
    fail with [EmptyRunQueue]; the call waits in [Queue.get()] and never
    returns, whatever the model and the rest of the state. *)
Theorem save_model_empty_queue_blocks (m : model_obj) (w : world) :
  save_model m (set_queue [] w) = (Blocked, set_queue [] w) /\
  fst (save_model m (set_queue [] w)) <> Raised EmptyRunQueue.
Proof.
  assert (E : save_model m (set_queue [] w) = (Blocked, set_queue [] w))
    by (apply save_model_blocks; reflexivity).
  split; [exact E|]. rewrite E. discriminate.
Qed.

(** C5: when the head pending run has no workspace id, [save_model] fails with
    [MissingWorkspaceError]; the run has been taken off the queue and nothing
    else has happened: no request was posted, no temporary file created, no
    line printed. *)
Theorem save_model_missing_workspace (m : model_obj) (w : world) a rest e :
  queue w = a :: rest -> heap w !! a = Some e -> _workspace_id e = None ->
  save_model m w = (Raised MissingWorkspaceError, set_queue rest w) /\
  posts (snd (save_model m w)) = posts w.
Proof.
  intros Hq He Hwid.
  rewrite (save_model_no_workspace m w a rest e Hq He Hwid).
  split; reflexivity.
Qed.

(** C7: [save_model] takes the head run off the queue before anything else,
    so whenever it then fails, with whatever exception and at whatever step
    (the workspace check, the serializer, the transport), the queue is left
    without that run; and the failed call has sent at most one request:
    nothing is put back and nothing is retried. *)
Theorem save_model_failure_loses_run (m : model_obj) (w w' : world) a rest err :
  queue w = a :: rest ->
  save_model m w = (Raised err, w') ->
  queue w' = rest /\
  heap w' = heap w /\
  (posts w' = posts w \/ exists url data, posts w' = posts w ++ [(url, data)]).
Proof.
  intros Hq E. split; [exact (save_model_pops m w a rest _ w' Hq E)|].
  split; [exact (save_model_heap m w _ w' E)|].
  exact (save_model_one_post m w _ w' E).
Qed.

(** The serializer on a model of none of the three types. *)
Lemma serialize_model_none (m : model_obj) (w : world) :
  is_BaseEstimator m = false -> is_keras_Model m = false ->
  is_torch_Module m = false ->
  serialize_model m w = (Returned None, w).
Proof. intros E1 E2 E3. unfold serialize_model. rewrite E1, E2, E3. reflexivity. Qed.

(** C10: for a model that is of none of the three types the serializer returns
    [None]; a [save_model] call that reaches the serializer then fails at the
    unpacking, with the run taken off the queue and nothing posted; and no
    [save_model] call with such a model, in any state, returns or posts. *)
Theorem save_model_unsupported_model (m : model_obj) :
  is_BaseEstimator m = false -> is_keras_Model m = false ->
  is_torch_Module m = false ->
  (forall w, serialize_model m w = (Returned None, w)) /\
  (forall w a rest e wid,
     queue w = a :: rest -> heap w !! a = Some e -> _workspace_id e = Some wid ->
     save_model m w =
     (Raised (TypeError "cannot unpack non-iterable NoneType object"),
      set_queue rest w)) /\
  (forall w, posts (snd (save_model m w)) = posts w /\
             forall r, fst (save_model m w) <> Returned r).
Proof.
  intros E1 E2 E3.
  assert (Hs : forall w, serialize_model m w = (Returned None, w))
    by (intros w; apply serialize_model_none; assumption).
  assert (Hu : forall w a rest e wid,
     queue w = a :: rest -> heap w !! a = Some e -> _workspace_id e = Some wid ->
     save_model m w =
     (Raised (TypeError "cannot unpack non-iterable NoneType object"),
      set_queue rest w)).
  { intros w a rest e wid Hq He Hwid.
    rewrite (save_model_with_workspace m w a rest e wid Hq He Hwid).
    unfold bind at 1. rewrite Hs. reflexivity. }
  split; [exact Hs|]. split; [exact Hu|].
  intros w. destruct (queue w) as [|a rest] eqn:Hq.
  - rewrite (save_model_blocks m w Hq). split; [reflexivity | intros r; simpl; discriminate].
  - destruct (heap w !! a) as [e|] eqn:He.
    + destruct (_workspace_id e) as [wid|] eqn:Hwid.
      * rewrite (Hu w a rest e wid Hq He Hwid). split; [reflexivity | intros r; simpl; discriminate].
      * rewrite (save_model_no_workspace m w a rest e Hq He Hwid).
        split; [reflexivity | intros r; simpl; discriminate].
    + rewrite (save_model_dangling m w a rest Hq He).
      split; [reflexivity | intros r; simpl; discriminate].
Qed.

End SaveClaims.

(** ** The payload of a successful [save_model] *)

Section PayloadClaims.
Context `{Collaborators}.

Lemma getattr_returned {A : Type} (f : Experiment -> A) a w v w' :
  getattr f a w = (Returned v, w') ->
  exists e, heap w !! a = Some e /\ v = f e /\ w' = w.
Proof.
  unfold getattr. destruct (heap w !! a) as [e|]; intros E; inversion E; subst.
  exists e. repeat split.
Qed.

Lemma unpack3_returned {A B C : Type} (v : option (A * B * C)) w t w' :
  unpack3 v w = (Returned t, w') -> v = Some t /\ w' = w.
Proof. destruct v; intros E; inversion E; subst. split; reflexivity. Qed.

Lemma file_name_returned (f : option tmpfile) w line w' :
  file_name f w = (Returned line, w') ->
  exists t, f = Some t /\ line = name t /\ w' = w.
Proof. destruct f as [t|]; intros E; inversion E; subst. exists t. repeat split. Qed.

Lemma do_post_returned url data w r w' :
  do_post url data w = (Returned r, w') ->
  doPost (posts w) url data = inr r /\ w' = add_post url data w.
Proof.
  unfold do_post. destruct (doPost (posts w) url data); intros E;
    inversion E; subst. split; reflexivity.
Qed.

(** What a returning [save_model] has done, read off its steps. *)
Lemma save_model_returned (m : model_obj) (w w' : world) (r : response) :
  save_model m w = (Returned r, w') ->
  exists a rest e wid blob t tag w1 pre_json post_json,
    queue w = a :: rest /\ heap w !! a = Some e /\
    _workspace_id e = Some wid /\
    serialize_model m (set_queue rest w) = (Returned (Some (blob, Some t, tag)), w1) /\
    json_dumps (_pretraining_metadata e) = inr pre_json /\
    json_dumps (_posttraining_metadata e) = inr post_json /\
    posts w' =
    posts w ++ [(Url.build_url ["workspace"; wid; "experiment"],
                 {| runtime := match get_runtime_version with
                               | inr v => v
                               | inl _ => EmptyString
                               end;
                    framework := tag;
                    parameters := encode_utf8 pre_json;
                    metrics := encode_utf8 post_json;
                    model := Base64.b64encode blob |})].
Proof.
  intros E.
  destruct (queue w) as [|a rest] eqn:Hq.
  { rewrite (save_model_blocks m w Hq) in E. discriminate E. }
  destruct (heap w !! a) as [e|] eqn:He.
  2:{ rewrite (save_model_dangling m w a rest Hq He) in E. discriminate E. }
  destruct (_workspace_id e) as [wid|] eqn:Hwid.
  2:{ rewrite (save_model_no_workspace m w a rest e Hq He Hwid) in E.
      discriminate E. }
  rewrite (save_model_with_workspace m w a rest e wid Hq He Hwid) in E.
  apply bind_returned in E. destruct E as (result & w1 & Eser & E).
  pose proof (serialize_model_heap m _ _ _ Eser) as Hheap.
  pose proof (serialize_model_posts m _ _ _ Eser) as Hposts.
  unfold same_heap, same_posts in Hheap, Hposts. simpl in Hheap, Hposts.
  apply bind_returned in E. destruct E as ([[blob file] tag] & w2 & Eun & E).
  apply unpack3_returned in Eun. destruct Eun as [-> ->].
  apply bind_returned in E. destruct E as (rt & w3 & Ert & E).
  apply lift_returned in Ert. destruct Ert as [Ert ->].
  apply bind_returned in E. destruct E as (pre & w4 & Epre & E).
  apply getattr_returned in Epre. destruct Epre as (e1 & He1 & -> & ->).
  apply bind_returned in E. destruct E as (pre_json & w5 & Epj & E).
  apply lift_returned in Epj. destruct Epj as [Epj ->].
  apply bind_returned in E. destruct E as (post & w6 & Epost & E).
  apply getattr_returned in Epost. destruct Epost as (e2 & He2 & -> & ->).
  apply bind_returned in E. destruct E as (post_json & w7 & Eqj & E).
  apply lift_returned in Eqj. destruct Eqj as [Eqj ->].
  apply bind_returned in E. destruct E as (line & w8 & Eline & E).
  apply file_name_returned in Eline. destruct Eline as (t & -> & -> & ->).
  apply bind_returned in E. destruct E as ([] & w9 & Eprint & E).
  unfold print in Eprint. inversion Eprint; subst w9; clear Eprint.
  apply do_post_returned in E. destruct E as [_ ->].
  rewrite Hheap, He in He1, He2.
  injection He1 as <-. injection He2 as <-.
  exists a, rest, e, wid, blob, t, tag, w1, pre_json, post_json.
  repeat (split; [first [reflexivity | eassumption]|]).
  simpl. rewrite Hposts, Ert. reflexivity.
Qed.

(** An estimator never gets through [save_model]: its serialization carries no
    file handle, and [model_file.name] is read before the request is sent. *)
Lemma save_model_estimator_never_returns (m : model_obj) (w w' : world) r :
  is_BaseEstimator m = true -> save_model m w <> (Returned r, w').
Proof.
  intros Hest E. apply save_model_returned in E.
  destruct E as (a & rest & e & wid & blob & t & tag & w1 & _ & _ & _ & _ & _ &
                 Eser & _).
  unfold serialize_model in Eser. rewrite Hest in Eser.
  unfold bind, lift, raise, ret in Eser.
  destruct (pickle_dumps m); inversion Eser.
Qed.

(** C6: when [save_model] returns, a head run with a workspace id was pending,
    the serializer returned a triple for the model, and exactly one request
    was posted, to the run's experiment path; in its payload [parameters] is
    the UTF-8 encoding of [json.dumps] of the head run's pretraining metadata,
    [metrics] that of its posttraining metadata, [framework] the serializer's
    tag, and [model] is base64 text that decodes to exactly the serializer's
    bytes. *)
Theorem save_model_payload (m : model_obj) (w w' : world) (r : response) :
  save_model m w = (Returned r, w') ->
  exists a rest e wid blob file tag w1 pre_json post_json data,
    queue w = a :: rest /\ heap w !! a = Some e /\
    _workspace_id e = Some wid /\
    serialize_model m (set_queue rest w) = (Returned (Some (blob, file, tag)), w1) /\
    json_dumps (_pretraining_metadata e) = inr pre_json /\
    json_dumps (_posttraining_metadata e) = inr post_json /\
    posts w' = posts w ++ [(Url.build_url ["workspace"; wid; "experiment"], data)] /\
    parameters data = encode_utf8 pre_json /\
    metrics data = encode_utf8 post_json /\
    framework data = tag /\
    Base64.b64decode (model data) = Some blob /\
    Forall (fun c => Base64.b64_char c = true) (model data).
Proof.
  intros E. apply save_model_returned in E.
  destruct E as (a & rest & e & wid & blob & t & tag & w1 & pre_json & post_json &
                 Hq & He & Hwid & Eser & Epre & Epost & Hposts).
  eexists a, rest, e, wid, blob, (Some t), tag, w1, pre_json, post_json, _.
  repeat (split; [first [reflexivity | eassumption]|]).
  split; [apply b64_roundtrip | apply b64encode_text].
Qed.

End PayloadClaims.

(** ** The run lifecycle: logging, dispatch, and the workspace id *)

Section LifecycleClaims.
Context `{Collaborators}.

(** The logging calls stop at [len(self._queue)], in every state. *)
Lemma log_pretraining_metadata_raises (md : pyobj) (w : world) :
  log_pretraining_metadata md w
  = (Raised (TypeError "object of type 'Queue' has no len()"), w).
Proof. reflexivity. Qed.

Lemma log_posttraining_metadata_raises (md : pyobj) (w : world) :
  log_posttraining_metadata md w
  = (Raised (TypeError "object of type 'Queue' has no len()"), w).
Proof. reflexivity. Qed.

(** C1 (the code departs from it): with two runs pending, a logging call does
    not overwrite the head run's metadata.  It raises [TypeError] at
    [len(self._queue)], because [queue.Queue] has no length, and both runs are
    left as [start_run] made them: the head run's metadata is still [dict()]. *)
Theorem log_metadata_two_runs (md : pyobj) :
  queue two_runs = [0; 1] /\
  log_pretraining_metadata md two_runs
  = (Raised (TypeError "object of type 'Queue' has no len()"), two_runs) /\
  log_posttraining_metadata md two_runs
  = (Raised (TypeError "object of type 'Queue' has no len()"), two_runs) /\
  (_pretraining_metadata <$> heap (snd (log_pretraining_metadata md two_runs)) !! 0)
  = Some empty_dict /\
  (_posttraining_metadata <$> heap (snd (log_posttraining_metadata md two_runs)) !! 0)
  = Some empty_dict.
Proof. repeat split. Qed.

(** C2 (the code departs from it): with no pending run, a logging call leaves
    the state unchanged but the error it raises is the [TypeError] of
    [len(self._queue)], not [EmptyRunQueue]; the line that raises
    [ValueError('No active experiment')] is never reached. *)
Theorem log_metadata_empty_queue (md : pyobj) (w : world) :
  log_pretraining_metadata md (set_queue [] w)
  = (Raised (TypeError "object of type 'Queue' has no len()"), set_queue [] w) /\
  log_posttraining_metadata md (set_queue [] w)
  = (Raised (TypeError "object of type 'Queue' has no len()"), set_queue [] w) /\
  fst (log_pretraining_metadata md (set_queue [] w)) <> Raised EmptyRunQueue /\
  fst (log_posttraining_metadata md (set_queue [] w)) <> Raised EmptyRunQueue.
Proof. repeat split; discriminate. Qed.

(** C8: the serializer tries the estimator type first, then the layered
    network type, then the tensor module type, and the first that matches
    decides the whole result.  An estimator is pickled in memory, with no file
    handle, no temporary file, and the tag "sklearn", whatever else it is an
    instance of.  Otherwise a layered network is saved, archived into a fresh
    temporary file and returned with that file and the tag "tensorflow",
    whether or not it is a tensor module too.  Otherwise a tensor module is
    scripted into a fresh temporary file and returned with that file and the
    tag "pytorch".  In each branch the only other outcome is the exception of
    the framework call that failed, and a returned triple never carries
    another tag. *)
Theorem serialize_model_dispatch (m : model_obj) (w : world) :
  (is_BaseEstimator m = true ->
   serialize_model m w =
   (match pickle_dumps m with
    | inr blob => Returned (Some (blob, None, "sklearn"))
    | inl e => Raised e
    end, w)) /\
  (is_BaseEstimator m = false -> is_keras_Model m = true ->
   serialize_model m w =
   match keras_save m with
   | inl e => (Raised e, w)
   | inr dir =>
       (match targz dir with
        | inr blob =>
            Returned (Some (blob,
                            Some {| name := tmp_name (tmp_count w) ".tar.gz" |},
                            "tensorflow"))
        | inl e => Raised e
        end, bump_tmp w)
   end) /\
  (is_BaseEstimator m = false -> is_keras_Model m = false ->
   is_torch_Module m = true ->
   serialize_model m w =
   (match torch_script_save m with
    | inr blob =>
        Returned (Some (blob, Some {| name := tmp_name (tmp_count w) ".pt" |},
                        "pytorch"))
    | inl e => Raised e
    end, bump_tmp w)) /\
  (forall blob file tag w',
     serialize_model m w = (Returned (Some (blob, file, tag)), w') ->
     tag = "sklearn" \/ tag = "tensorflow" \/ tag = "pytorch").
Proof.
  unfold serialize_model. repeat split.
  - intros ->. unfold bind, lift, raise, ret.
    destruct (pickle_dumps m); reflexivity.
  - intros -> ->. unfold bind, lift, raise, ret, NamedTemporaryFile.
    destruct (keras_save m) as [e|dir]; [reflexivity|].
    destruct (targz dir); reflexivity.
  - intros -> -> ->. unfold bind, lift, raise, ret, NamedTemporaryFile.
    destruct (torch_script_save m); reflexivity.
  - intros blob file tag w'. unfold bind, lift, raise, ret, NamedTemporaryFile.
    destruct (is_BaseEstimator m).
    { destruct (pickle_dumps m); intros E; inversion E; auto. }
    destruct (is_keras_Model m).
    { destruct (keras_save m) as [e|dir]; [discriminate|].
      destruct (targz dir); intros E; inversion E; auto. }
    destruct (is_torch_Module m).
    { destruct (torch_script_save m); intros E; inversion E; auto. }
    discriminate.
Qed.

(** Each operation keeps the workspace id of every handle there is. *)
Lemma perform_workspace_ids (o : operation) (w : world) :
  workspace_ids_kept w (perform o w).
Proof.
  assert (Hsnd : forall (A : Type) (c : M A),
             respects workspace_ids_kept c -> workspace_ids_kept w (snd (c w))).
  { intros A c Hc. apply (Hc w (fst (c w))). destruct (c w); reflexivity. }
  destruct o; cbn [perform]; apply Hsnd.
  - unfold start_run. apply respects_bind; [typeclasses eauto| |intros a].
    + apply new_Experiment_workspace_ids.
    + apply same_heap_workspace_ids.
      apply respects_bind; [typeclasses eauto| |intros _].
      * apply queue_put_heap.
      * apply respects_ret; typeclasses eauto.
  - intros w0 o w' E. rewrite log_pretraining_metadata_raises in E.
    inversion E; subst. reflexivity.
  - intros w0 o w' E. rewrite log_posttraining_metadata_raises in E.
    inversion E; subst. reflexivity.
  - apply same_heap_workspace_ids, save_model_heap.
  - apply respects_raise; typeclasses eauto.
  - apply setattr_workspace_ids. reflexivity.
  - apply setattr_workspace_ids. reflexivity.
  - apply setattr_workspace_ids. reflexivity.
  - apply setattr_workspace_ids. reflexivity.
  - apply setattr_workspace_ids. reflexivity.
  - apply same_heap_workspace_ids. unfold Experiment_save, serializable_model.
    apply respects_bind; [typeclasses eauto| |intros [model|]].
    + apply respects_getattr; typeclasses eauto.
    + apply respects_bind; [typeclasses eauto| |intros _].
      * apply save_model_heap.
      * apply respects_ret; typeclasses eauto.
    + apply respects_raise; typeclasses eauto.
Qed.

Lemma perform_all_workspace_ids (os : list operation) (w : world) :
  workspace_ids_kept w (perform_all os w).
Proof.
  revert w. induction os as [|o os IH]; intros w.
  - reflexivity.
  - simpl. transitivity (perform o w);
      [apply perform_workspace_ids | apply IH].
Qed.

(** C9: the handle that [start_run] creates carries the workspace id it was
    given, and after any sequence of operations of the facade and of the
    handles (logging, saving, every setter, an attempted assignment to
    [workspace_id], [Experiment.save], further [start_run]s) every handle
    still has the workspace id it had. *)
Theorem workspace_id_immutable :
  (forall wid w, exists a w',
      start_run wid w = (Returned a, w') /\ heap w !! a = None /\
      (_workspace_id <$> heap w' !! a) = Some wid /\
      queue w' = queue w ++ [a]) /\
  (forall os w a e,
      heap w !! a = Some e ->
      exists e', heap (perform_all os w) !! a = Some e' /\
                 _workspace_id e' = _workspace_id e).
Proof.
  split.
  - intros wid w. eexists _, _. split; [reflexivity|]. simpl.
    split; [apply lookup_ge_None; lia|]. split; [|reflexivity].
    rewrite lookup_app_r by lia. rewrite Nat.sub_diag. reflexivity.
  - intros os w. apply perform_all_workspace_ids.
Qed.

End LifecycleClaims.

(** ** Queued addresses always refer to handles *)

Section Invariant.
Context `{Collaborators}.

Lemma init_world_well_formed : well_formed init_world.
Proof. constructor. Qed.

Lemma well_formed_head (w : world) a rest :
  well_formed w -> queue w = a :: rest -> is_Some (heap w !! a).
Proof.
  unfold well_formed. intros Hwf Hq. rewrite Hq in Hwf.
  inversion Hwf; subst. apply lookup_lt_is_Some. assumption.
Qed.

Lemma save_model_well_formed (m : model_obj) (w : world) :
  well_formed w -> well_formed (snd (save_model m w)).
Proof.
  intros Hwf. destruct (save_model m w) as [o w'] eqn:E. simpl.
  pose proof (save_model_heap m w o w' E) as Hh. unfold same_heap in Hh.
  unfold well_formed in *. rewrite Hh.
  destruct (queue w) as [|a rest] eqn:Hq.
  - rewrite (save_model_blocks m w Hq) in E. inversion E; subst.
    rewrite Hq. constructor.
  - rewrite (save_model_pops m w a rest o w' Hq E).
    inversion Hwf; assumption.
Qed.

Lemma setattr_well_formed (f : Experiment -> Experiment) a (w : world) :
  well_formed w -> well_formed (snd (setattr f a w)).
Proof.
  unfold well_formed, setattr. simpl. rewrite length_alter. auto.
Qed.

(** Every operation keeps the invariant, so from a fresh facade [save_model]
    always finds the handle of the address it takes off the queue. *)
Lemma perform_well_formed (o : operation) (w : world) :
  well_formed w -> well_formed (perform o w).
Proof.
  intros Hwf. destruct o; cbn [perform];
    try exact Hwf; try (apply setattr_well_formed; exact Hwf).
  - unfold well_formed in *. simpl. rewrite length_app. simpl.
    apply Forall_app. split.
    + eapply Forall_impl; [exact Hwf|]. simpl. intros; lia.
    + repeat constructor. lia.
  - apply save_model_well_formed, Hwf.
  - unfold Experiment_save, serializable_model, bind, getattr.
    destruct (heap w !! a) as [e|]; [|exact Hwf].
    destruct (_serializable_model e) as [m|]; [|exact Hwf].
    fold (bind (save_model m) (fun _ => ret tt) w).
    rewrite bind_drop_state. apply save_model_well_formed, Hwf.
Qed.

Lemma perform_all_well_formed (os : list operation) :
  well_formed (perform_all os init_world).
Proof.
  unfold perform_all. generalize init_world_well_formed.
  generalize init_world. induction os as [|o os IH]; intros w Hwf.
  - exact Hwf.
  - simpl. apply IH, perform_well_formed, Hwf.
Qed.

End Invariant.

(** ** The claims at concrete inputs *)

Section TransportUp.
#[local] Existing Instance demo_up.

Lemma save_model_missing_workspace_witness :
  let w := snd (start_run None init_world) in
  queue w = [0] /\
  (_workspace_id <$> heap w !! 0) = Some None /\
  save_model (H := demo_up) SklearnModel w = (Raised MissingWorkspaceError, set_queue [] w) /\
  posts (snd (save_model (H := demo_up) SklearnModel w)) = posts w.
Proof.
  cbv zeta. split; [reflexivity|]. split; [reflexivity|].
  eapply (save_model_missing_workspace (H := demo_up) SklearnModel
            (snd (start_run None init_world)) 0 []); reflexivity.
Defined.

Lemma save_model_unsupported_model_witness :
  let w := snd (start_run (Some "w1") init_world) in
  serialize_model (H := demo_up) PlainObject w = (Returned None, w) /\
  save_model (H := demo_up) PlainObject w
  = (Raised (TypeError "cannot unpack non-iterable NoneType object"),
     set_queue [] w).
Proof.
  cbv zeta.
  destruct (save_model_unsupported_model (H := demo_up) PlainObject eq_refl eq_refl eq_refl)
    as (Hs & Hu & _).
  split; [apply Hs|].
  eapply (Hu (snd (start_run (Some "w1") init_world)) 0 []); reflexivity.
Defined.

Lemma save_model_payload_witness :
  let w := snd (start_run (Some "w1") init_world) in
  let w' := snd (save_model (H := demo_up) KerasModel w) in
  save_model (H := demo_up) KerasModel w = (Returned tt, w') /\
  exists a rest e wid blob file tag w1 pre_json post_json data,
    queue w = a :: rest /\ heap w !! a = Some e /\
    _workspace_id e = Some wid /\
    serialize_model (H := demo_up) KerasModel (set_queue rest w)
    = (Returned (Some (blob, file, tag)), w1) /\
    json_dumps (_pretraining_metadata e) = inr pre_json /\
    json_dumps (_posttraining_metadata e) = inr post_json /\
    posts w' = posts w ++ [(Url.build_url ["workspace"; wid; "experiment"], data)] /\
    parameters data = encode_utf8 pre_json /\
    metrics data = encode_utf8 post_json /\
    framework data = tag /\
    Base64.b64decode (model data) = Some blob /\
    Forall (fun c => Base64.b64_char c = true) (model data).
Proof.
  cbv zeta. split; [reflexivity|].
  apply (save_model_payload (H := demo_up) KerasModel
           (snd (start_run (Some "w1") init_world)) _ tt).
  reflexivity.
Defined.

Lemma serialize_model_dispatch_witness :
  is_BaseEstimator (Collaborators := demo_up) SklearnKerasModel = true /\
  is_keras_Model (Collaborators := demo_up) SklearnKerasModel = true /\
  serialize_model (H := demo_up) SklearnKerasModel init_world
  = (Returned (Some ([x80; x04; x4e; x2e], None, "sklearn")), init_world) /\
  serialize_model (H := demo_up) KerasModel init_world
  = (Returned (Some ([x1f; x8b; x08], Some {| name := "/tmp/tmp.tar.gz" |},
                     "tensorflow")), bump_tmp init_world) /\
  serialize_model (H := demo_up) TorchModel init_world
  = (Returned (Some ([x50; x4b; x03; x04; x00], Some {| name := "/tmp/tmp.pt" |},
                     "pytorch")), bump_tmp init_world).
Proof.
  split; [reflexivity|]. split; [reflexivity|]. split; [|split].
  - exact (proj1 (serialize_model_dispatch (H := demo_up) SklearnKerasModel
                    init_world) eq_refl).
  - destruct (serialize_model_dispatch (H := demo_up) KerasModel init_world)
      as (_ & Hk & _).
    exact (Hk eq_refl eq_refl).
  - destruct (serialize_model_dispatch (H := demo_up) TorchModel init_world)
      as (_ & _ & Ht & _).
    exact (Ht eq_refl eq_refl eq_refl).
Defined.

Lemma workspace_id_immutable_witness :
  let os := [Op_log_pretraining_metadata true;
             Op_set_workspace_id 1 (Some "w3");
             Op_set_pretraining_metadata 1 true;
             Op_set_runtime 1 (Some "python-3.8");
             Op_save_model (H := demo_up) KerasModel;
             Op_start_run None;
             Op_set_serializable_model 1 (Some TorchModel);
             Op_Experiment_save 1] in
  (_workspace_id <$> heap two_runs !! 1) = Some (Some "w2") /\
  queue (perform_all os two_runs) = [2] /\
  exists e', heap (perform_all os two_runs) !! 1 = Some e' /\
             _workspace_id e' = Some "w2".
Proof.
  cbv zeta. split; [reflexivity|]. split; [reflexivity|].
  apply (proj2 (workspace_id_immutable (H := demo_up)) _ two_runs 1
           {| _workspace_id := Some "w2"; _runtime := None; _framework := None;
              _pretraining_metadata := empty_dict;
              _posttraining_metadata := empty_dict;
              _serializable_model := None |}).
  reflexivity.
Defined.

End TransportUp.

Section TransportDown.
#[local] Existing Instance demo_down.

Lemma save_model_failure_loses_run_witness :
  let w := snd (start_run (Some "w1") init_world) in
  queue w = [0] /\
  fst (save_model (H := demo_down) KerasModel w) = Raised (OtherError "HTTPError" "503") /\
  length (posts (snd (save_model (H := demo_down) KerasModel w))) = 1 /\
  queue (snd (save_model (H := demo_down) KerasModel w)) = [].
Proof.
  cbv zeta. repeat (split; [reflexivity|]).
  eapply proj1. eapply (save_model_failure_loses_run (H := demo_down) KerasModel
            (snd (start_run (Some "w1") init_world)) _ 0 []
            (OtherError "HTTPError" "503")); reflexivity.
Defined.

End TransportDown.

(** * Further properties *)

(** ** The request builder on its own *)

Section UrlMore.
Import Url.

Lemma string_app_assoc (s t u : string) : ((s ++ t) ++ u = s ++ (t ++ u))%string.
Proof.
  induction s as [|a s IH]; [reflexivity|].
  change (String a ((s ++ t) ++ u) = String a (s ++ (t ++ u)))%string.
  rewrite IH. reflexivity.
Qed.

Lemma lstrip_fixed (s : string) : starts_with_sep s = false -> lstrip slash s = s.
Proof. destruct s as [|a s]; simpl; [reflexivity|]. intros ->. reflexivity. Qed.

Lemma rstrip_fixed (s : string) : ends_with_sep s = false -> rstrip slash s = s.
Proof.
  induction s as [|a s IH]; [reflexivity|].
  destruct s as [|b s].
  - simpl. intros ->. reflexivity.
  - intros E. change (ends_with_sep (String a (String b s)))
      with (ends_with_sep (String b s)) in E.
    change (rstrip slash (String a (String b s)))
      with (match rstrip slash (String b s) with
            | EmptyString =>
                if Ascii.eqb a slash then EmptyString else String a EmptyString
            | r => String a r
            end).
    rewrite (IH E). reflexivity.
Qed.

(** A string without separators at its ends is left as it is. *)
Lemma strip_fixed (s : string) :
  starts_with_sep s = false -> ends_with_sep s = false -> strip slash s = s.
Proof.
  intros Hs He. unfold strip. rewrite (lstrip_fixed s Hs). apply rstrip_fixed, He.
Qed.

Lemma strip_idempotent (s : string) : strip slash (strip slash s) = strip slash s.
Proof. apply strip_fixed; [apply strip_no_lead | apply strip_no_trail]. Qed.

Lemma rstrip_app_slash (s : string) :
  rstrip slash (s ++ String slash EmptyString) = rstrip slash s.
Proof.
  induction s as [|a s IH]; [reflexivity|].
  simpl. rewrite IH. reflexivity.
Qed.

Lemma strip_app_slash (s : string) :
  strip slash (s ++ String slash EmptyString) = strip slash s.
Proof.
  unfold strip. induction s as [|a s IH]; [reflexivity|].
  simpl. destruct (Ascii.eqb a slash); [exact IH|].
  apply (rstrip_app_slash (String a s)).
Qed.

Lemma strip_cons_slash (s : string) : strip slash (String slash s) = strip slash s.
Proof. reflexivity. Qed.

(** X1: separators around a segment do not matter.  Stripping the segments
    beforehand, or wrapping every segment in a pair of separators, gives the
    same path. *)
Theorem build_url_outer_slashes (paths : list string) :
  build_url (map (strip slash) paths) = build_url paths /\
  build_url (map (fun s => String slash (s ++ String slash EmptyString)) paths)
  = build_url paths.
Proof.
  unfold build_url. split; f_equal; rewrite map_map; apply map_ext; intros s.
  - apply strip_idempotent.
  - rewrite strip_cons_slash. apply strip_app_slash.
Qed.

Lemma join_snoc (sep : string) (l : list string) (x : string) :
  l <> [] -> join sep (l ++ [x]) = (join sep l ++ sep ++ x)%string.
Proof.
  induction l as [|p rest IH]; [congruence|]. intros _.
  destruct rest as [|q rest']; [reflexivity|].
  change (join sep ((p :: q :: rest') ++ [x]))
    with (p ++ sep ++ join sep ((q :: rest') ++ [x]))%string.
  rewrite IH by discriminate.
  change (join sep (p :: q :: rest')) with (p ++ sep ++ join sep (q :: rest'))%string.
  rewrite !string_app_assoc. reflexivity.
Qed.

(** X2: a further segment extends the path of the segments before it: the
    path of a non-empty list followed by [x] is the path of the list, a
    separator, and [x] stripped. *)
Theorem build_url_snoc (paths : list string) (x : string) :
  paths <> [] ->
  build_url (paths ++ [x])
  = (build_url paths ++ String slash EmptyString ++ strip slash x)%string.
Proof.
  intros Hne. unfold build_url. rewrite map_app. simpl map.
  apply join_snoc. destruct paths; [congruence | discriminate].
Qed.

Lemma build_url_snoc_witness :
  ["workspace"; "w1"; "model"; "3"] <> [] /\
  build_url (["workspace"; "w1"; "model"; "3"] ++ ["deploy"])
  = (build_url ["workspace"; "w1"; "model"; "3"] ++ "/" ++ "deploy")%string.
Proof.
  split; [discriminate|].
  apply (build_url_snoc ["workspace"; "w1"; "model"; "3"] "deploy"). discriminate.
Defined.

Lemma join_merge (sep : string) (pre post : list string) (a b : string) :
  join sep (pre ++ (a ++ sep ++ b)%string :: post) = join sep (pre ++ a :: b :: post).
Proof.
  induction pre as [|p pre IH].
  - destruct post as [|q post]; simpl.
    + reflexivity.
    + rewrite !string_app_assoc. reflexivity.
  - destruct pre as [|p' pre'].
    + change (join sep ([p] ++ (a ++ sep ++ b)%string :: post))
        with (p ++ sep ++ join sep ([] ++ (a ++ sep ++ b)%string :: post))%string.
      rewrite IH. reflexivity.
    + change (join sep ((p :: p' :: pre') ++ (a ++ sep ++ b)%string :: post))
        with (p ++ sep ++ join sep ((p' :: pre') ++ (a ++ sep ++ b)%string :: post))%string.
      rewrite IH. reflexivity.
Qed.

(** X3: the path does not tell segment boundaries apart from separators inside
    a segment.  For two non-empty segments without separators at their ends,
    passing them joined by a separator as one segment gives the same path as
    passing them as two. *)
Theorem build_url_merge (pre post : list string) (a b : string) :
  a <> EmptyString -> b <> EmptyString ->
  starts_with_sep a = false -> ends_with_sep a = false ->
  starts_with_sep b = false -> ends_with_sep b = false ->
  build_url (pre ++ (a ++ String slash EmptyString ++ b)%string :: post)
  = build_url (pre ++ a :: b :: post).
Proof.
  intros Ha Hb Hsa Hea Hsb Heb. unfold build_url.
  rewrite !map_app. simpl map.
  rewrite (strip_fixed a Hsa Hea), (strip_fixed b Hsb Heb).
  rewrite strip_fixed.
  - apply join_merge.
  - rewrite starts_app. destruct a; [congruence | exact Hsa].
  - rewrite ends_app. simpl. rewrite ends_app.
    destruct b; [congruence | exact Heb].
Qed.

Lemma build_url_merge_witness :
  build_url (["workspace"] ++ ("w1" ++ "/" ++ "registry")%string :: [])
  = build_url (["workspace"] ++ "w1" :: "registry" :: []).
Proof.
  apply (build_url_merge ["workspace"] [] "w1" "registry");
    first [discriminate | reflexivity].
Defined.

End UrlMore.

(** ** The workspace, registry and model calls *)

Section CallFacts.
Context `{Transport}.
Import Url.

Lemma strip_args_some (l : list string) :
  strip_args (map Some l) = inr (map (strip slash) l).
Proof. induction l as [|s l IH]; simpl; [reflexivity | rewrite IH; reflexivity]. Qed.

Lemma build_url_of_some (l : list string) :
  build_url_of (map Some l) = inr (build_url l).
Proof. unfold build_url_of, build_url. rewrite strip_args_some. reflexivity. Qed.

Lemma with_url_some (l : list string) (mk : string -> request) log :
  with_url (map Some l) mk log = send (mk (build_url l)) log.
Proof. unfold with_url. rewrite build_url_of_some. reflexivity. Qed.





Lemma send_log (r : request) (log : list request) : snd (send r log) = log ++ [r].
Proof. unfold send. destruct (answer log r); reflexivity. Qed.

(** X6: registering and unregistering an experiment address the same path,
    "workspace/<id>/registry", but reading the registered experiment goes to
    another one, "workspaces/<id>/registry": for no workspace id do the two
    coincide. *)
Theorem registry_paths (wid : string) (version : Z) (log : list request) :
  snd (register_experiment (Some wid) version log)
  = log ++ [Post (build_url ["workspace"; wid; "registry"])
                 [("version", VInt version)]] /\
  snd (unregister_experiment (Some wid) log)
  = log ++ [Delete (build_url ["workspace"; wid; "registry"])] /\
  snd (get_registered_experiment (Some wid) log)
  = log ++ [Get (build_url ["workspaces"; wid; "registry"])] /\
  build_url ["workspaces"; wid; "registry"] <> build_url ["workspace"; wid; "registry"].
Proof.
  repeat split.
  - unfold register_experiment.
    rewrite (with_url_some ["workspace"; wid; "registry"]). apply send_log.
  - unfold unregister_experiment.
    rewrite (with_url_some ["workspace"; wid; "registry"]). apply send_log.
  - unfold get_registered_experiment.
    rewrite (with_url_some ["workspaces"; wid; "registry"]). apply send_log.
  - unfold build_url. simpl map.
    change (strip slash "workspaces") with "workspaces".
    change (strip slash "workspace") with "workspace".
    simpl join. intros E. discriminate E.
Qed.


Lemma strip_arg_wrapped (p : option string) :
  strip_arg ((fun s => String slash (s ++ String slash EmptyString)) <$> p)
  = strip_arg p.
Proof.
  destruct p as [s|]; [|reflexivity]. simpl. f_equal.
  rewrite strip_cons_slash. apply strip_app_slash.
Qed.

(** X8: separators around a workspace id make no difference to any call: the
    call with the id wrapped in a pair of separators sends the same request
    and ends the same way. *)
Theorem call_ignores_outer_slashes (c : api_call) (log : list request) :
  invoke (map_workspace_id (fun s => String slash (s ++ String slash EmptyString)) c)
         log
  = invoke c log.
Proof.
  destruct c; try reflexivity; cbn [invoke map_workspace_id];
    unfold get_workspace, delete_workspace, register_experiment,
      get_registered_experiment, unregister_experiment, deploy_model,
      download_model, with_url, build_url_of;
    cbn [strip_args]; rewrite strip_arg_wrapped; reflexivity.
Qed.

(** X9: a workspace id is put into the path as it is, so an id that contains
    a separator reaches another call's resource.  For a non-empty id [w]
    without separators at its ends, deleting the workspace [w ++ "/registry"]
    sends the very request that unregistering the experiment of [w] sends. *)
Theorem delete_workspace_reaches_registry (w : string) (log : list request) :
  w <> EmptyString -> starts_with_sep w = false -> ends_with_sep w = false ->
  delete_workspace (Some (w ++ "/registry")%string) log
  = unregister_experiment (Some w) log.
Proof.
  intros Hne Hs He. unfold delete_workspace, unregister_experiment.
  rewrite (with_url_some ["workspace"; (w ++ "/registry")%string]).
  rewrite (with_url_some ["workspace"; w; "registry"]).
  do 2 f_equal. unfold build_url. simpl map.
  rewrite (strip_fixed w Hs He).
  change (strip slash "registry") with "registry".
  change (strip slash "workspace") with "workspace".
  rewrite (strip_fixed (w ++ "/registry")%string).
  - apply (join_merge (String slash EmptyString) ["workspace"] [] w "registry").
  - rewrite starts_app. destruct w; [congruence | exact Hs].
  - rewrite ends_app. reflexivity.
Qed.





End CallFacts.

(** ** Handles and saving *)

Section RunMore.
Context `{Collaborators}.

Lemma setattr_lookup (f : Experiment -> Experiment) a b (w : world) :
  heap (snd (setattr f a w)) !! b
  = if decide (a = b) then f <$> heap w !! b else heap w !! b.
Proof.
  unfold setattr. simpl. destruct (decide (a = b)) as [->|Hne].
  - apply list_lookup_alter_eq.
  - apply list_lookup_alter_ne, Hne.
Qed.

Lemma getattr_live {A : Type} (f : Experiment -> A) a e (w : world) :
  heap w !! a = Some e -> getattr f a w = (Returned (f e), w).
Proof. intros He. unfold getattr. rewrite He. reflexivity. Qed.

(** X11: what is written through a handle is what is read back through it,
    and nothing else moves.  After [handle.pretraining_metadata = v] the
    handle's pretraining metadata reads [v], its posttraining metadata and its
    workspace id read as before, every other handle reads as before, and the
    queue and the requests sent are untouched; likewise for the posttraining
    metadata. *)
Theorem metadata_write_read (a : addr) (e : Experiment) (v : pyobj) (w : world) :
  heap w !! a = Some e ->
  let w1 := snd (set_pretraining_metadata a v w) in
  let w2 := snd (set_posttraining_metadata a v w) in
  pretraining_metadata a w1 = (Returned v, w1) /\
  posttraining_metadata a w1 = (Returned (_posttraining_metadata e), w1) /\
  workspace_id a w1 = (Returned (_workspace_id e), w1) /\
  posttraining_metadata a w2 = (Returned v, w2) /\
  pretraining_metadata a w2 = (Returned (_pretraining_metadata e), w2) /\
  workspace_id a w2 = (Returned (_workspace_id e), w2) /\
  (forall b, b <> a -> heap w1 !! b = heap w !! b /\ heap w2 !! b = heap w !! b) /\
  queue w1 = queue w /\ posts w1 = posts w /\
  queue w2 = queue w /\ posts w2 = posts w.
Proof.
  intros He w1 w2.
  assert (H1 : heap w1 !! a = Some
            {| _workspace_id := _workspace_id e; _runtime := _runtime e;
               _framework := _framework e; _pretraining_metadata := v;
               _posttraining_metadata := _posttraining_metadata e;
               _serializable_model := _serializable_model e |}).
  { subst w1. unfold set_pretraining_metadata. rewrite setattr_lookup.
    rewrite decide_True by reflexivity. rewrite He. reflexivity. }
  assert (H2 : heap w2 !! a = Some
            {| _workspace_id := _workspace_id e; _runtime := _runtime e;
               _framework := _framework e;
               _pretraining_metadata := _pretraining_metadata e;
               _posttraining_metadata := v;
               _serializable_model := _serializable_model e |}).
  { subst w2. unfold set_posttraining_metadata. rewrite setattr_lookup.
    rewrite decide_True by reflexivity. rewrite He. reflexivity. }
  unfold pretraining_metadata, posttraining_metadata, workspace_id.
  rewrite !(getattr_live _ a _ w1 H1), !(getattr_live _ a _ w2 H2). simpl.
  repeat (split; [reflexivity|]).
  split; [|repeat split].
  intros b Hb. subst w1 w2.
  split; apply list_lookup_alter_ne; congruence.
Qed.

(** X12: [Experiment.save()] on a handle that holds no model raises
    [ValueError('Model is empty')] and changes nothing: the run stays queued
    and no request is sent. *)
Theorem Experiment_save_without_model (a : addr) (e : Experiment) (w : world) :
  heap w !! a = Some e -> _serializable_model e = None ->
  Experiment_save a w = (Raised (ValueError "Model is empty"), w).
Proof.
  intros He Hm. unfold Experiment_save, bind, serializable_model.
  rewrite (getattr_live _ a e w He), Hm. reflexivity.
Qed.

(** X13: [save_model] leaves every handle as it was, however it ends: the
    saved run's handle keeps its metadata, and its [runtime] and [framework]
    attributes are not filled in.  The same holds for [Experiment.save()]. *)
Theorem save_keeps_handles (m : model_obj) (a : addr) (w : world) :
  heap (snd (save_model m w)) = heap w /\
  heap (snd (Experiment_save a w)) = heap w.
Proof.
  split.
  - destruct (save_model m w) as [o w'] eqn:E. exact (save_model_heap m w o w' E).
  - unfold Experiment_save, bind, serializable_model, getattr.
    destruct (heap w !! a) as [e|]; [|reflexivity].
    destruct (_serializable_model e) as [m'|]; [|reflexivity].
    fold (bind (save_model m') (fun _ => ret tt) w). rewrite bind_drop_state.
    destruct (save_model m' w) as [o w'] eqn:E. exact (save_model_heap m' w o w' E).
Qed.

(** X14: [save_model] runs to the upload whenever the serializer gives bytes
    with a file handle and the runtime version and both metadata encode.  It
    then takes the run off the queue, prints the file name, sends one request
    to the run's experiment path, and ends as the transport does: with its
    answer, or with its exception unchanged. *)
Theorem save_model_completes (m : model_obj) (w w1 : world) a rest e wid
        blob f tag rt pre_json post_json :
  queue w = a :: rest -> heap w !! a = Some e -> _workspace_id e = Some wid ->
  serialize_model m (set_queue rest w) = (Returned (Some (blob, Some f, tag)), w1) ->
  get_runtime_version = inr rt ->
  json_dumps (_pretraining_metadata e) = inr pre_json ->
  json_dumps (_posttraining_metadata e) = inr post_json ->
  let url := Url.build_url ["workspace"; wid; "experiment"] in
  let data := {| runtime := rt; framework := tag;
                 parameters := encode_utf8 pre_json;
                 metrics := encode_utf8 post_json;
                 model := Base64.b64encode blob |} in
  save_model m w
  = (match doPost (posts w) url data with
     | inr r => Returned r
     | inl err => Raised err
     end,
     add_post url data (add_line (name f) w1)).
Proof.
  intros Hq He Hwid Hser Hrt Hpre Hpost url data.
  pose proof (serialize_model_heap m _ _ _ Hser) as Hheap.
  pose proof (serialize_model_posts m _ _ _ Hser) as Hposts.
  unfold same_heap, same_posts in Hheap, Hposts. simpl in Hheap, Hposts.
  assert (He1 : heap w1 !! a = Some e) by (rewrite Hheap; exact He).
  rewrite (save_model_with_workspace m w a rest e wid Hq He Hwid).
  unfold bind at 1. rewrite Hser.
  unfold bind at 1. unfold unpack3, ret at 1.
  unfold bind at 1. rewrite Hrt. unfold lift at 1, ret at 1.
  unfold bind at 1. unfold pretraining_metadata. rewrite (getattr_live _ a e w1 He1).
  unfold bind at 1. rewrite Hpre. unfold lift at 1, ret at 1.
  unfold bind at 1. unfold posttraining_metadata. rewrite (getattr_live _ a e w1 He1).
  unfold bind at 1. rewrite Hpost. unfold lift at 1, ret at 1.
  unfold bind, file_name, ret, print, do_post. simpl.
  rewrite Hposts. fold url. fold data.
  destruct (doPost (posts w) url data); reflexivity.
Qed.

(** With an estimator and a head run that has a workspace id, [save_model]
    ends in one of five exceptions and in the state that only lacks the run. *)
Lemma save_model_estimator_steps (m : model_obj) (w : world) a rest e wid :
  is_BaseEstimator m = true ->
  queue w = a :: rest -> heap w !! a = Some e -> _workspace_id e = Some wid ->
  save_model m w =
  (match pickle_dumps m with
   | inl err => Raised err
   | inr _ =>
       match get_runtime_version with
       | inl err => Raised err
       | inr _ =>
           match json_dumps (_pretraining_metadata e) with
           | inl err => Raised err
           | inr _ =>
               match json_dumps (_posttraining_metadata e) with
               | inl err => Raised err
               | inr _ =>
                   Raised (AttributeError
                             "'NoneType' object has no attribute 'name'")
               end
           end
       end
   end, set_queue rest w).
Proof.
  intros Hest Hq He Hwid.
  rewrite (save_model_with_workspace m w a rest e wid Hq He Hwid).
  assert (He1 : heap (set_queue rest w) !! a = Some e) by exact He.
  unfold serialize_model. rewrite Hest.
  unfold bind at 1. unfold bind at 1.
  destruct (pickle_dumps m) as [err|blob]; [reflexivity|].
  unfold lift at 1, ret at 1, ret at 1.
  unfold bind at 1. unfold unpack3, ret at 1.
  unfold bind at 1.
  destruct get_runtime_version as [err|rt]; [reflexivity|].
  unfold lift at 1, ret at 1.
  unfold bind at 1. unfold pretraining_metadata. rewrite (getattr_live _ a e _ He1).
  unfold bind at 1.
  destruct (json_dumps (_pretraining_metadata e)) as [err|pj]; [reflexivity|].
  unfold lift at 1, ret at 1.
  unfold bind at 1. unfold posttraining_metadata. rewrite (getattr_live _ a e _ He1).
  unfold bind at 1.
  destruct (json_dumps (_posttraining_metadata e)) as [err|qj]; reflexivity.
Qed.

(** X15: an estimator is never uploaded.  The serializer gives it no file
    handle, and [save_model] reads [model_file.name] before it posts: in no
    state does [save_model] with an estimator return or send a request, and
    when the run, the pickling and the encodings are all in order the call
    ends in [AttributeError], with the run taken off the queue. *)
Theorem save_model_estimator (m : model_obj) :
  is_BaseEstimator m = true ->
  (forall w, posts (snd (save_model m w)) = posts w /\
             forall r, fst (save_model m w) <> Returned r) /\
  (forall w a rest e wid blob rt pre_json post_json,
     queue w = a :: rest -> heap w !! a = Some e -> _workspace_id e = Some wid ->
     pickle_dumps m = inr blob -> get_runtime_version = inr rt ->
     json_dumps (_pretraining_metadata e) = inr pre_json ->
     json_dumps (_posttraining_metadata e) = inr post_json ->
     save_model m w
     = (Raised (AttributeError "'NoneType' object has no attribute 'name'"),
        set_queue rest w)).
Proof.
  intros Hest. split.
  - intros w. destruct (queue w) as [|a rest] eqn:Hq.
    { rewrite (save_model_blocks m w Hq). split; [reflexivity|].
      intros r; simpl; discriminate. }
    destruct (heap w !! a) as [e|] eqn:He.
    2:{ rewrite (save_model_dangling m w a rest Hq He). split; [reflexivity|].
        intros r; simpl; discriminate. }
    destruct (_workspace_id e) as [wid|] eqn:Hwid.
    2:{ rewrite (save_model_no_workspace m w a rest e Hq He Hwid).
        split; [reflexivity|]. intros r; simpl; discriminate. }
    rewrite (save_model_estimator_steps m w a rest e wid Hest Hq He Hwid).
    split; [reflexivity|]. intros r. simpl.
    destruct (pickle_dumps m); [discriminate|].
    destruct get_runtime_version; [discriminate|].
    destruct (json_dumps (_pretraining_metadata e)); [discriminate|].
    destruct (json_dumps (_posttraining_metadata e)); discriminate.
  - intros w a rest e wid blob rt pj qj Hq He Hwid Hp Hrt Hpre Hpost.
    rewrite (save_model_estimator_steps m w a rest e wid Hest Hq He Hwid).
    rewrite Hp, Hrt, Hpre, Hpost. reflexivity.
Qed.

Lemma save_model_posted (m : model_obj) (w w' : world) (r : response) a rest e wid :
  queue w = a :: rest -> heap w !! a = Some e -> _workspace_id e = Some wid ->
  save_model m w = (Returned r, w') ->
  exists data pre_json post_json,
    json_dumps (_pretraining_metadata e) = inr pre_json /\
    json_dumps (_posttraining_metadata e) = inr post_json /\
    parameters data = encode_utf8 pre_json /\
    metrics data = encode_utf8 post_json /\
    posts w' = posts w ++ [(Url.build_url ["workspace"; wid; "experiment"], data)] /\
    queue w' = rest /\ heap w' = heap w.
Proof.
  intros Hq He Hwid E.
  pose proof (save_model_pops m w a rest _ w' Hq E) as Hq'.
  pose proof (save_model_heap m w _ w' E) as Hh'.
  apply save_model_returned in E.
  destruct E as (a' & rest' & e' & wid' & blob & t & tag & w1 & pj & qj &
                 Hq2 & He2 & Hwid2 & _ & Epre & Epost & Hposts).
  rewrite Hq in Hq2. injection Hq2 as <- <-.
  rewrite He in He2. injection He2 as <-.
  rewrite Hwid in Hwid2. injection Hwid2 as <-.
  eexists {| runtime := _; framework := tag; parameters := encode_utf8 pj;
             metrics := encode_utf8 qj; model := Base64.b64encode blob |}, pj, qj.
  split; [exact Epre|]. split; [exact Epost|].
  split; [reflexivity|]. split; [reflexivity|].
  split; [exact Hposts|]. split; [exact Hq' | exact Hh'].
Qed.

(** X16: what the caller writes through the handle is what gets uploaded.
    When the head run's handle is given pretraining metadata [v] and
    posttraining metadata [v'] and [save_model] then returns, the one request
    sent goes to the run's experiment path and carries the UTF-8 JSON text of
    [v] as parameters and of [v'] as metrics. *)
Theorem handle_metadata_uploaded (m : model_obj) (w w' : world) (r : response)
        a rest e wid (v v' : pyobj) :
  queue w = a :: rest -> heap w !! a = Some e -> _workspace_id e = Some wid ->
  let w1 := snd (set_pretraining_metadata a v w) in
  let w2 := snd (set_posttraining_metadata a v' w1) in
  save_model m w2 = (Returned r, w') ->
  exists data pre_json post_json,
    json_dumps v = inr pre_json /\ json_dumps v' = inr post_json /\
    parameters data = encode_utf8 pre_json /\
    metrics data = encode_utf8 post_json /\
    posts w' = posts w ++ [(Url.build_url ["workspace"; wid; "experiment"], data)].
Proof.
  intros Hq He Hwid w1 w2 E.
  assert (He2 : heap w2 !! a = Some
            {| _workspace_id := _workspace_id e; _runtime := _runtime e;
               _framework := _framework e; _pretraining_metadata := v;
               _posttraining_metadata := v';
               _serializable_model := _serializable_model e |}).
  { subst w2 w1. unfold set_posttraining_metadata, set_pretraining_metadata.
    rewrite !setattr_lookup. rewrite !decide_True by reflexivity.
    rewrite He. reflexivity. }
  destruct (save_model_posted m w2 w' r a rest _ wid Hq He2 Hwid E)
    as (data & pj & qj & Epre & Epost & Hpar & Hmet & Hposts & _).
  exists data, pj, qj. repeat (split; [assumption|]). exact Hposts.
Qed.

(** X17: [Experiment.save()] does not save the handle it is called on but the
    head of the queue.  Called on any handle that holds a model, a returning
    call yields [None] and has uploaded that very model, serialized and
    base64-encoded, with the serializer's tag, but under the workspace id and
    with the metadata of the oldest pending run; it is that run which leaves
    the queue. *)
Theorem Experiment_save_uses_head (a h : addr) (e eh : Experiment) (m : model_obj)
        (w w' : world) rest wid :
  heap w !! a = Some e -> _serializable_model e = Some m ->
  queue w = h :: rest -> heap w !! h = Some eh -> _workspace_id eh = Some wid ->
  Experiment_save a w = (Returned tt, w') ->
  exists data blob file tag w1 pre_json post_json,
    serialize_model m (set_queue rest w) = (Returned (Some (blob, file, tag)), w1) /\
    model data = Base64.b64encode blob /\
    framework data = tag /\
    json_dumps (_pretraining_metadata eh) = inr pre_json /\
    json_dumps (_posttraining_metadata eh) = inr post_json /\
    parameters data = encode_utf8 pre_json /\
    metrics data = encode_utf8 post_json /\
    posts w' = posts w ++ [(Url.build_url ["workspace"; wid; "experiment"], data)] /\
    queue w' = rest.
Proof.
  intros He Hm Hq Heh Hwid E.
  unfold Experiment_save in E. unfold bind at 1 in E.
  unfold serializable_model in E. rewrite (getattr_live _ a e w He), Hm in E.
  apply bind_drop_returned in E. destruct E as [r E].
  pose proof (save_model_pops m w h rest _ w' Hq E) as Hq'.
  apply save_model_returned in E.
  destruct E as (h' & rest' & eh' & wid' & blob & t & tag & w1 & pj & qj &
                 Hq2 & He2 & Hwid2 & Eser & Epre & Epost & Hposts).
  rewrite Hq in Hq2. injection Hq2 as <- <-.
  rewrite Heh in He2. injection He2 as <-.
  rewrite Hwid in Hwid2. injection Hwid2 as <-.
  eexists {| runtime := _; framework := tag; parameters := encode_utf8 pj;
             metrics := encode_utf8 qj; model := Base64.b64encode blob |},
          blob, (Some t), tag, w1, pj, qj.
  split; [exact Eser|]. split; [reflexivity|]. split; [reflexivity|].
  split; [exact Epre|]. split; [exact Epost|].
  split; [reflexivity|]. split; [reflexivity|].
  split; [exact Hposts | exact Hq'].
Qed.

(** X18: a run that is started and saved at once is uploaded with empty
    metadata.  From a state without pending runs, [start_run(wid)] followed
    by a returning [save_model] sends one request, to the experiment path of
    [wid], whose parameters and metrics are both the UTF-8 JSON text of
    [dict()], and leaves no run pending. *)
Theorem start_then_save (m : model_obj) (wid : string) (w w' : world)
        (r : response) :
  queue w = [] ->
  save_model m (snd (start_run (Some wid) w)) = (Returned r, w') ->
  exists data json,
    json_dumps empty_dict = inr json /\
    parameters data = encode_utf8 json /\ metrics data = encode_utf8 json /\
    posts w' = posts w ++ [(Url.build_url ["workspace"; wid; "experiment"], data)] /\
    queue w' = [].
Proof.
  intros Hq E.
  assert (Hq1 : queue (snd (start_run (Some wid) w)) = [length (heap w)]).
  { simpl. rewrite Hq. reflexivity. }
  assert (He1 : heap (snd (start_run (Some wid) w)) !! length (heap w) = Some
            {| _workspace_id := Some wid; _runtime := None; _framework := None;
               _pretraining_metadata := empty_dict;
               _posttraining_metadata := empty_dict;
               _serializable_model := None |}).
  { simpl. rewrite lookup_app_r by lia. rewrite Nat.sub_diag. reflexivity. }
  destruct (save_model_posted m _ w' r _ [] _ wid Hq1 He1 eq_refl E)
    as (data & pj & qj & Epre & Epost & Hpar & Hmet & Hposts & Hq' & _).
  simpl in Epre, Epost. rewrite Epre in Epost. injection Epost as <-.
  exists data, pj. repeat (split; [assumption|]). exact Hq'.
Qed.

(** X20: runs are saved in the order they were started.  With two runs at
    the front of the queue, two returning [save_model] calls send their
    requests to the experiment path of the older run first and of the newer
    run second, and leave the rest of the queue. *)
Theorem saves_in_start_order (m1 m2 : model_obj) (w w1 w2 : world)
        (r1 r2 : response) a1 a2 rest e1 e2 wid1 wid2 :
  queue w = a1 :: a2 :: rest ->
  heap w !! a1 = Some e1 -> _workspace_id e1 = Some wid1 ->
  heap w !! a2 = Some e2 -> _workspace_id e2 = Some wid2 ->
  save_model m1 w = (Returned r1, w1) ->
  save_model m2 w1 = (Returned r2, w2) ->
  exists d1 d2,
    posts w2 = posts w ++ [(Url.build_url ["workspace"; wid1; "experiment"], d1);
                           (Url.build_url ["workspace"; wid2; "experiment"], d2)] /\
    queue w2 = rest.
Proof.
  intros Hq He1 Hw1 He2 Hw2 E1 E2.
  destruct (save_model_posted m1 w w1 r1 a1 (a2 :: rest) e1 wid1 Hq He1 Hw1 E1)
    as (d1 & _ & _ & _ & _ & _ & _ & Hp1 & Hq1 & Hh1).
  rewrite <- Hh1 in He2.
  destruct (save_model_posted m2 w1 w2 r2 a2 rest e2 wid2 Hq1 He2 Hw2 E2)
    as (d2 & _ & _ & _ & _ & _ & _ & Hp2 & Hq2 & _).
  exists d1, d2. split; [|exact Hq2].
  rewrite Hp2, Hp1, <- app_assoc. reflexivity.
Qed.

(** Every operation keeps the pending runs in creation order. *)
Lemma perform_fifo (o : operation) (w : world) : fifo w -> fifo (perform o w).
Proof.
  assert (Hsave : forall m, fifo w -> fifo (snd (save_model m w))).
  { intros m [Hs Hb]. destruct (save_model m w) as [out w'] eqn:E. simpl.
    pose proof (save_model_heap m w out w' E) as Hh. unfold same_heap in Hh.
    unfold fifo. rewrite Hh. destruct (queue w) as [|a rest] eqn:Hq.
    - rewrite (save_model_blocks m w Hq) in E. inversion E; subst.
      rewrite Hq. split; constructor.
    - rewrite (save_model_pops m w a rest out w' Hq E).
      inversion Hs; inversion Hb; subst. split; assumption. }
  assert (Hset : forall f a, fifo w -> fifo (snd (setattr f a w))).
  { intros f a [Hs Hb]. unfold fifo, setattr. simpl. rewrite length_alter.
    split; assumption. }
  intros Hf. destruct o; cbn [perform];
    try exact Hf; try (apply Hset; exact Hf); try (apply Hsave; exact Hf).
  - destruct Hf as [Hs Hb]. unfold fifo. simpl. rewrite length_app. simpl.
    split.
    + apply StronglySorted_app_2; [|exact Hs|repeat constructor].
      intros x1 x2 Hx1 Hx2. apply list_elem_of_singleton in Hx2. subst x2.
      rewrite Forall_forall in Hb. apply Hb, Hx1.
    + apply Forall_app. split.
      * eapply Forall_impl; [exact Hb|]. simpl. intros; lia.
      * repeat constructor. lia.
  - unfold Experiment_save, serializable_model, bind, getattr.
    destruct (heap w !! a) as [e|]; [|exact Hf].
    destruct (_serializable_model e) as [m|]; [|exact Hf].
    fold (bind (save_model m) (fun _ => ret tt) w).
    rewrite bind_drop_state. apply Hsave, Hf.
Qed.

(** X19: whatever the caller does with a fresh facade and its handles, in any
    order, the pending runs stay in the order they were started, no run is
    pending twice, and every pending run is a handle that [start_run] made. *)
Theorem pending_runs_in_order (os : list operation) :
  StronglySorted lt (queue (perform_all os init_world)) /\
  NoDup (queue (perform_all os init_world)) /\
  Forall (fun a => is_Some (heap (perform_all os init_world) !! a))
         (queue (perform_all os init_world)).
Proof.
  assert (Hf : fifo (perform_all os init_world)).
  { unfold perform_all.
    assert (H0 : fifo init_world) by (split; constructor).
    revert H0. generalize init_world.
    induction os as [|o os IH]; intros w Hw; [exact Hw|].
    simpl. apply IH, perform_fifo, Hw. }
  destruct Hf as [Hs Hb]. split; [exact Hs|]. split.
  - revert Hs. generalize (queue (perform_all os init_world)).
    intros l Hs. induction Hs as [|x l Hs IH Hx]; constructor; [|exact IH].
    intros Hin. rewrite Forall_forall in Hx.
    specialize (Hx x Hin). lia.
  - eapply Forall_impl; [exact Hb|]. simpl. intros a Ha.
    apply lookup_lt_is_Some. exact Ha.
Qed.

End RunMore.

(** ** The further properties at concrete inputs *)

Section CallsAtInputs.
#[local] Existing Instance counting_transport.


Lemma delete_workspace_reaches_registry_witness :
  delete_workspace (Some "w1/registry") [] = (Returned 0, [Delete "workspace/w1/registry"]) /\
  delete_workspace (Some "w1/registry") [] = unregister_experiment (Some "w1") [].
Proof.
  split; [reflexivity|].
  apply (delete_workspace_reaches_registry "w1" []);
    first [discriminate | reflexivity].
Defined.


End CallsAtInputs.

Section RunsAtInputs.
#[local] Existing Instance demo_up.

Lemma metadata_write_read_witness :
  let w1 := snd (set_pretraining_metadata 0 demo_metadata two_runs) in
  pretraining_metadata 0 w1 = (Returned demo_metadata, w1) /\
  posttraining_metadata 0 w1 = (Returned empty_dict, w1) /\
  pretraining_metadata 1 w1 = (Returned empty_dict, w1).
Proof.
  cbv zeta.
  pose proof (metadata_write_read (H := demo_up) 0
                (demo_handle "w1" None)
                demo_metadata two_runs eq_refl) as P.
  cbv zeta in P. destruct P as (P1 & P2 & _).
  split; [exact P1|]. split; [exact P2 | reflexivity].
Defined.

Lemma Experiment_save_without_model_witness :
  Experiment_save 1 two_runs = (Raised (ValueError "Model is empty"), two_runs).
Proof.
  apply (Experiment_save_without_model (H := demo_up) 1
           (demo_handle "w2" None) two_runs); reflexivity.
Defined.

Lemma save_model_completes_witness :
  save_model (H := demo_up) TorchModel two_runs
  = (Returned tt,
     add_post "workspace/w1/experiment"
       {| runtime := "python-3.8"; framework := "pytorch";
          parameters := encode_utf8 "{}"; metrics := encode_utf8 "{}";
          model := Base64.b64encode [x50; x4b; x03; x04; x00] |}
       (add_line "/tmp/tmp.pt" (bump_tmp (set_queue [1] two_runs)))).
Proof.
  apply (save_model_completes (H := demo_up) TorchModel two_runs
           (bump_tmp (set_queue [1] two_runs)) 0 [1]
           (demo_handle "w1" None)
           "w1" [x50; x4b; x03; x04; x00] {| name := "/tmp/tmp.pt" |} "pytorch"
           "python-3.8" "{}" "{}"); reflexivity.
Defined.

Lemma save_model_estimator_witness :
  is_BaseEstimator (Collaborators := demo_up) SklearnModel = true /\
  save_model (H := demo_up) SklearnModel two_runs
  = (Raised (AttributeError "'NoneType' object has no attribute 'name'"),
     set_queue [1] two_runs).
Proof.
  split; [reflexivity|].
  apply (proj2 (save_model_estimator (H := demo_up) SklearnModel eq_refl)
           two_runs 0 [1]
           (demo_handle "w1" None)
           "w1" [x80; x04; x4e; x2e] "python-3.8" "{}" "{}"); reflexivity.
Defined.

Lemma handle_metadata_uploaded_witness :
  let w2 := snd (set_posttraining_metadata 0 demo_metadata
                   (snd (set_pretraining_metadata 0 demo_metadata two_runs))) in
  fst (save_model (H := demo_up) KerasModel w2) = Returned tt /\
  exists data pre_json post_json,
    json_dumps (Collaborators := demo_up) demo_metadata = inr pre_json /\
    json_dumps (Collaborators := demo_up) demo_metadata = inr post_json /\
    parameters data = encode_utf8 pre_json /\
    metrics data = encode_utf8 post_json /\
    posts (snd (save_model (H := demo_up) KerasModel w2))
    = posts two_runs ++ [(Url.build_url ["workspace"; "w1"; "experiment"], data)].
Proof.
  cbv zeta. split; [reflexivity|].
  apply (handle_metadata_uploaded (H := demo_up) KerasModel two_runs _ tt 0 [1]
           (demo_handle "w1" None)
           "w1" demo_metadata demo_metadata); reflexivity.
Defined.

Lemma Experiment_save_uses_head_witness :
  let w := snd (set_serializable_model (H := demo_up) 1 (Some TorchModel) two_runs) in
  Experiment_save 1 w = (Returned tt, snd (Experiment_save 1 w)) /\
  exists data blob file tag w1 pre_json post_json,
    serialize_model (H := demo_up) TorchModel (set_queue [1] w)
    = (Returned (Some (blob, file, tag)), w1) /\
    model data = Base64.b64encode blob /\
    framework data = tag /\
    json_dumps (Collaborators := demo_up) empty_dict = inr pre_json /\
    json_dumps (Collaborators := demo_up) empty_dict = inr post_json /\
    parameters data = encode_utf8 pre_json /\
    metrics data = encode_utf8 post_json /\
    posts (snd (Experiment_save 1 w))
    = posts w ++ [(Url.build_url ["workspace"; "w1"; "experiment"], data)] /\
    queue (snd (Experiment_save 1 w)) = [1].
Proof.
  cbv zeta. split; [reflexivity|].
  apply (Experiment_save_uses_head (H := demo_up) 1 0
           (demo_handle "w2" (Some TorchModel)) (demo_handle "w1" None)
           TorchModel
           (snd (set_serializable_model (H := demo_up) 1 (Some TorchModel) two_runs))
           _ [1] "w1"); reflexivity.
Defined.

Lemma start_then_save_witness :
  fst (save_model (H := demo_up) KerasModel (snd (start_run (Some "w1") init_world)))
  = Returned tt /\
  exists data json,
    json_dumps (Collaborators := demo_up) empty_dict = inr json /\
    parameters data = encode_utf8 json /\ metrics data = encode_utf8 json /\
    posts (snd (save_model (H := demo_up) KerasModel
                  (snd (start_run (Some "w1") init_world))))
    = posts init_world ++ [(Url.build_url ["workspace"; "w1"; "experiment"], data)] /\
    queue (snd (save_model (H := demo_up) KerasModel
                  (snd (start_run (Some "w1") init_world)))) = [].
Proof.
  split; [reflexivity|].
  apply (start_then_save (H := demo_up) KerasModel "w1" init_world _ tt);
    reflexivity.
Defined.

Lemma saves_in_start_order_witness :
  let w1 := snd (save_model (H := demo_up) KerasModel two_runs) in
  let w2 := snd (save_model (H := demo_up) TorchModel w1) in
  exists d1 d2,
    posts w2 = posts two_runs ++
               [(Url.build_url ["workspace"; "w1"; "experiment"], d1);
                (Url.build_url ["workspace"; "w2"; "experiment"], d2)] /\
    queue w2 = [].
Proof.
  cbv zeta.
  apply (saves_in_start_order (H := demo_up) KerasModel TorchModel two_runs
           (snd (save_model (H := demo_up) KerasModel two_runs)) _ tt tt 0 1 []
           (demo_handle "w1" None)
           (demo_handle "w2" None)
           "w1" "w2"); reflexivity.
Defined.

End RunsAtInputs.
